(** * gogetdoc: documentation lookup for an identifier (ident.go)

    A shallow embedding of [findTypeSpec], [findVarSpec], [formatNode] and
    [IdentDoc], followed by the properties of the rendering and of the
    documentation walk.

    Go values are modelled as follows.
    - A pointer that the code compares with nil, or that may be nil, is an
      [option].
    - A run-time panic (nil dereference, failed type assertion) is an
      explicit outcome of the [exec] monad.
    - A Go [(T, error)] result is a [result T].
    - The parts of go/ast, go/types, go/token and go/loader that ident.go
      reads are records and variants carrying the fields it reads. *)

From Stdlib Require Import String Ascii List ZArith Bool.
Import ListNotations.
Open Scope string_scope.

(** ** Outcomes of Go code *)

Inductive panic : Type :=
| NilDereference
| InterfaceConversion.

Inductive exec (A : Type) : Type :=
| Ret (a : A)
| Panic (p : panic).

Arguments Ret {A} a.
Arguments Panic {A} p.

Definition bind {A B : Type} (m : exec A) (k : A -> exec B) : exec B :=
  match m with
  | Ret a => k a
  | Panic p => Panic p
  end.

Notation "x <- m ;; k" := (bind m (fun x => k))
  (at level 61, m at next level, right associativity).

(** A Go [error] is represented by its message. *)
Definition error : Type := string.

Inductive result (A : Type) : Type :=
| Ok (a : A)
| Err (e : error).

Arguments Ok {A} a.
Arguments Err {A} e.

(** ** go/token *)

Module token.

Definition Pos : Type := Z.

Definition NoPos : Pos := 0%Z.

Inductive Token : Type :=
| ILLEGAL | INT | FLOAT | IMAG | CHAR | STRING
| IMPORT | CONST | TYPE | VAR.

Definition Token_eqb (a b : Token) : bool :=
  match a, b with
  | ILLEGAL, ILLEGAL | INT, INT | FLOAT, FLOAT | IMAG, IMAG
  | CHAR, CHAR | STRING, STRING
  | IMPORT, IMPORT | CONST, CONST | TYPE, TYPE | VAR, VAR => true
  | _, _ => false
  end.

(** A file set is only handed on to the printer and to the package lookup. *)
Record FileSet : Type := { FileSet_base : Z }.

End token.

(** ** go/ast *)

Module ast.

(** A comment group stands for what its [Text] method returns, the only
    thing ident.go reads from it besides whether the pointer is nil. *)
Record CommentGroup : Type := { CommentGroup_text : string }.

(** The [Text] method of a comment group pointer accepts a nil receiver
    and returns the empty string for it. *)
Definition Text (g : option CommentGroup) : string :=
  match g with
  | None => ""
  | Some c => CommentGroup_text c
  end.

Record Ident : Type := {
  Ident_NamePos : token.Pos;
  Ident_Name : string
}.

Record BasicLit : Type := {
  BasicLit_ValuePos : token.Pos;
  BasicLit_Kind : token.Token;
  BasicLit_Value : string
}.

(** Expressions: basic literals, and every other expression kind, kept as
    its source text. *)
Inductive Expr : Type :=
| Expr_BasicLit (bl : BasicLit)
| Expr_Other (src : string).

Record ImportSpec : Type := {
  ImportSpec_Doc : option CommentGroup;
  ImportSpec_Name : option Ident;
  ImportSpec_Path : BasicLit;
  ImportSpec_Comment : option CommentGroup
}.

Record ValueSpec : Type := {
  ValueSpec_Doc : option CommentGroup;
  ValueSpec_Names : list Ident;
  ValueSpec_Type : option Expr;
  ValueSpec_Values : list Expr;
  ValueSpec_Comment : option CommentGroup
}.

Record TypeSpec : Type := {
  TypeSpec_Doc : option CommentGroup;
  TypeSpec_Name : Ident;
  TypeSpec_Type : Expr;
  TypeSpec_Comment : option CommentGroup
}.

(** The [Spec] interface with its three implementations. *)
Inductive Spec : Type :=
| Spec_ImportSpec (s : ImportSpec)
| Spec_ValueSpec (s : ValueSpec)
| Spec_TypeSpec (s : TypeSpec).

Record GenDecl : Type := {
  GenDecl_Doc : option CommentGroup;
  GenDecl_TokPos : token.Pos;
  GenDecl_Tok : token.Token;
  GenDecl_Lparen : token.Pos;
  GenDecl_Specs : list Spec;
  GenDecl_Rparen : token.Pos
}.

Record Field : Type := {
  Field_Doc : option CommentGroup;
  Field_Names : list Ident;
  Field_Type : Expr;
  Field_Tag : option BasicLit;
  Field_Comment : option CommentGroup
}.

Record FuncType : Type := {
  FuncType_Func : token.Pos;
  FuncType_Params : list Field;
  FuncType_Results : option (list Field)
}.

(** A function body; its statements are never read. *)
Record BlockStmt : Type := {
  BlockStmt_Lbrace : token.Pos;
  BlockStmt_Rbrace : token.Pos
}.

Record FuncDecl : Type := {
  FuncDecl_Doc : option CommentGroup;
  FuncDecl_Recv : option (list Field);
  FuncDecl_Name : Ident;
  FuncDecl_Type : FuncType;
  FuncDecl_Body : option BlockStmt
}.

(** The [Node] interface: the three dynamic types ident.go switches on,
    and any other node, kept as the name of its type. *)
Inductive Node : Type :=
| Node_FuncDecl (n : FuncDecl)
| Node_GenDecl (n : GenDecl)
| Node_Field (n : Field)
| Node_Other (dyn : string).

End ast.

(** ** go/types *)

Module types.

Record Package : Type := {
  Package_Path : string;
  Package_Name : string
}.

(** The dynamic type behind an [Object]; a [*PkgName] carries the package
    it imports. *)
Inductive ObjectType : Type :=
| PkgName (Imported : Package)
| Const | TypeName | Var | Func | Label | Builtin | Nil.

(** An object, by the results of the methods ident.go calls on it. *)
Record Object : Type := {
  Object_dyn : ObjectType;
  Object_Name : string;
  Object_Pkg : option Package;
  Object_Pos : token.Pos;
  Object_String : string
}.

End types.

(** ** go/loader *)

Module loader.

(** [ObjectOf] returns nil for an identifier that denotes no object. *)
Record PackageInfo : Type := {
  ObjectOf : ast.Ident -> option types.Object
}.

(** [PathEnclosingInterval] is kept by the node path it returns, innermost
    node first; ident.go discards its two other results. *)
Record Program : Type := {
  Fset : token.FileSet;
  PathEnclosingInterval : token.Pos -> token.Pos -> list ast.Node
}.

End loader.

(** ** The Doc record

    The [Doc] struct is declared outside ident.go; these are the four
    fields ident.go writes.  The struct's field [Doc] is [DocText] here,
    the record itself taking the name [Doc]. *)
Record Doc : Type := {
  Import : string;
  Name : string;
  Title : string;
  DocText : string
}.

(** [doc.Doc = text] *)
Definition set_Doc (doc : Doc) (text : string) : Doc :=
  {| Import := Import doc; Name := Name doc; Title := Title doc;
     DocText := text |}.

(** ** findTypeSpec and findVarSpec *)

(** The loop of [findTypeSpec]: the type assertion on each Spec panics on
    a Spec that is no [*ast.TypeSpec]. *)
Fixpoint findTypeSpec_loop (specs : list ast.Spec) (symbol : string)
  : exec (option ast.TypeSpec) :=
  match specs with
  | [] => Ret None
  | ast.Spec_TypeSpec typeSpec :: rest =>
      if String.eqb symbol (ast.Ident_Name (ast.TypeSpec_Name typeSpec))
      then Ret (Some typeSpec)
      else findTypeSpec_loop rest symbol
  | _ :: _ => Panic InterfaceConversion
  end.

Definition findTypeSpec (decl : ast.GenDecl) (symbol : string)
  : exec (option ast.TypeSpec) :=
  findTypeSpec_loop (ast.GenDecl_Specs decl) symbol.

(** The inner loop of [findVarSpec] over the names of one Spec. *)
Fixpoint hasName (names : list ast.Ident) (symbol : string) : bool :=
  match names with
  | [] => false
  | ident :: rest =>
      if String.eqb (ast.Ident_Name ident) symbol then true
      else hasName rest symbol
  end.

Fixpoint findVarSpec_loop (specs : list ast.Spec) (symbol : string)
  : exec (option ast.ValueSpec) :=
  match specs with
  | [] => Ret None
  | ast.Spec_ValueSpec varSpec :: rest =>
      if hasName (ast.ValueSpec_Names varSpec) symbol
      then Ret (Some varSpec)
      else findVarSpec_loop rest symbol
  | _ :: _ => Panic InterfaceConversion
  end.

Definition findVarSpec (decl : ast.GenDecl) (symbol : string)
  : exec (option ast.ValueSpec) :=
  findVarSpec_loop (ast.GenDecl_Specs decl) symbol.

(** ** formatNode *)

Section Lookup.

(** go/printer: [cfg.Fprint(buf, fset, node)] with the fixed configuration
    of [formatNode], by the text it leaves in the buffer or its error. *)
Variable Fprint : token.FileSet -> ast.Node -> result string.

(** The package name and package comment that the package-level lookup
    finds for an import path, or the error of a failed lookup. *)
Variable packageInfo : string -> result (string * string).

(** The tail of [formatNode]: print the copy [nc], and fall back on
    [obj.String()] when the printer fails. *)
Definition printNode (nc : ast.Node) (obj : types.Object)
    (prog : loader.Program) : string :=
  match Fprint (loader.Fset prog) nc with
  | Err _ => types.Object_String obj
  | Ok text => text
  end.

(** [specCp := *spec; specCp.Doc = nil] for a type Spec. *)
Definition TypeSpec_noDoc (spec : ast.TypeSpec) : ast.TypeSpec :=
  {| ast.TypeSpec_Doc := None;
     ast.TypeSpec_Name := ast.TypeSpec_Name spec;
     ast.TypeSpec_Type := ast.TypeSpec_Type spec;
     ast.TypeSpec_Comment := ast.TypeSpec_Comment spec |}.

(** [specCp := *spec; specCp.Doc = nil] for a value Spec. *)
Definition ValueSpec_noDoc (spec : ast.ValueSpec) : ast.ValueSpec :=
  {| ast.ValueSpec_Doc := None;
     ast.ValueSpec_Names := ast.ValueSpec_Names spec;
     ast.ValueSpec_Type := ast.ValueSpec_Type spec;
     ast.ValueSpec_Values := ast.ValueSpec_Values spec;
     ast.ValueSpec_Comment := ast.ValueSpec_Comment spec |}.

(** [cp := *n; cp.Doc = nil] for a declaration group. *)
Definition GenDecl_noDoc (n : ast.GenDecl) : ast.GenDecl :=
  {| ast.GenDecl_Doc := None;
     ast.GenDecl_TokPos := ast.GenDecl_TokPos n;
     ast.GenDecl_Tok := ast.GenDecl_Tok n;
     ast.GenDecl_Lparen := ast.GenDecl_Lparen n;
     ast.GenDecl_Specs := ast.GenDecl_Specs n;
     ast.GenDecl_Rparen := ast.GenDecl_Rparen n |}.

(** [cp.Specs = []ast.Spec{&specCp}; cp.Lparen = 0; cp.Rparen = 0] *)
Definition GenDecl_only (cp : ast.GenDecl) (specCp : ast.Spec)
  : ast.GenDecl :=
  {| ast.GenDecl_Doc := ast.GenDecl_Doc cp;
     ast.GenDecl_TokPos := ast.GenDecl_TokPos cp;
     ast.GenDecl_Tok := ast.GenDecl_Tok cp;
     ast.GenDecl_Lparen := 0%Z;
     ast.GenDecl_Specs := [specCp];
     ast.GenDecl_Rparen := 0%Z |}.

(** [cp := *n; cp.Doc = nil; cp.Body = nil] for a function. *)
Definition FuncDecl_header (n : ast.FuncDecl) : ast.FuncDecl :=
  {| ast.FuncDecl_Doc := None;
     ast.FuncDecl_Recv := ast.FuncDecl_Recv n;
     ast.FuncDecl_Name := ast.FuncDecl_Name n;
     ast.FuncDecl_Type := ast.FuncDecl_Type n;
     ast.FuncDecl_Body := None |}.

(** The [*ast.GenDecl] case of [formatNode], up to [nc = &cp].
    [*spec] panics when the Spec lookup returned nil. *)
Definition formatNode_GenDecl (n : ast.GenDecl) (obj : types.Object)
  : exec ast.GenDecl :=
  let cp := GenDecl_noDoc n in
  match ast.GenDecl_Specs n with
  | ast.Spec_TypeSpec _ :: _ =>
      spec <- findTypeSpec n (types.Object_Name obj) ;;
      match spec with
      | None => Panic NilDereference
      | Some spec =>
          Ret (GenDecl_only cp (ast.Spec_TypeSpec (TypeSpec_noDoc spec)))
      end
  | ast.Spec_ValueSpec _ :: _ =>
      spec <- findVarSpec n (types.Object_Name obj) ;;
      match spec with
      | None => Panic NilDereference
      | Some spec =>
          Ret (GenDecl_only cp (ast.Spec_ValueSpec (ValueSpec_noDoc spec)))
      end
  | _ => Ret cp
  end.

Definition formatNode (n : ast.Node) (obj : types.Object)
    (prog : loader.Program) : exec string :=
  match n with
  | ast.Node_FuncDecl n =>
      Ret (printNode (ast.Node_FuncDecl (FuncDecl_header n)) obj prog)
  | ast.Node_GenDecl n =>
      cp <- formatNode_GenDecl n obj ;;
      Ret (printNode (ast.Node_GenDecl cp) obj prog)
  | ast.Node_Field _ => Ret (types.Object_String obj)
  | ast.Node_Other _ => Ret (types.Object_String obj)
  end.

(** ** IdentDoc *)

(** [fmt.Errorf("No documentation found for %s", name)] *)
Definition noDocumentationFound (name : string) : error :=
  "No documentation found for " ++ name.

Definition newline : string := String "010"%char EmptyString.

(** [fmt.Sprintf("\nConstant Value: %s", constValue)] *)
Definition constantValueLine (constValue : string) : string :=
  newline ++ "Constant Value: " ++ constValue.

(** Modelled from the spec: [PackageDoc], the package-level documentation
    lookup, is declared in the repository outside ident.go.  The spec has
    it keyed by the canonical package path, and has the record it returns
    carry that path as ImportPath and an empty Title.  What it finds for
    the path, or the failure to find it, is [packageInfo]. *)
Definition PackageDoc (fset : token.FileSet) (importPath : string)
  : result Doc :=
  match packageInfo importPath with
  | Ok (name, text) =>
      Ok {| Import := importPath; Name := name; Title := "";
            DocText := text |}
  | Err e => Err e
  end.

(** The switch of the first loop: the node kinds a title is made from. *)
Definition isDeclaration (node : ast.Node) : bool :=
  match node with
  | ast.Node_FuncDecl _ | ast.Node_GenDecl _ | ast.Node_Field _ => true
  | ast.Node_Other _ => false
  end.

(** The first loop of [IdentDoc]: [doc] stays nil until the first node of
    a supported kind, whose rendering becomes the title. *)
Fixpoint titleLoop (nodes : list ast.Node) (pkgPath : string)
    (obj : types.Object) (prog : loader.Program) : exec (option Doc) :=
  match nodes with
  | [] => Ret None
  | node :: rest =>
      if isDeclaration node then
        title <- formatNode node obj prog ;;
        Ret (Some {| Import := pkgPath; Name := types.Object_Name obj;
                     Title := title; DocText := "" |})
      else titleLoop rest pkgPath obj prog
  end.

(** The inner loops of the const scan over the values of one Spec:
    the first basic literal with a non-empty text, if any. *)
Fixpoint valueLoop (values : list ast.Expr) : option string :=
  match values with
  | [] => None
  | ast.Expr_BasicLit bl :: rest =>
      if negb (String.eqb (ast.BasicLit_Value bl) "")
      then Some (ast.BasicLit_Value bl)
      else valueLoop rest
  | ast.Expr_Other _ :: rest => valueLoop rest
  end.

(** [SpecLoop]: leaves [constValue] empty when no literal is found; the
    type assertion panics on a Spec that is no [*ast.ValueSpec]. *)
Fixpoint SpecLoop (specs : list ast.Spec) : exec string :=
  match specs with
  | [] => Ret ""
  | ast.Spec_ValueSpec vs :: rest =>
      match valueLoop (ast.ValueSpec_Values vs) with
      | Some constValue => Ret constValue
      | None => SpecLoop rest
      end
  | _ :: _ => Panic InterfaceConversion
  end.

(** The body of the second loop for one node: [Some text] when the node
    sets [doc.Doc = text] and returns, [None] when the loop goes on. *)
Definition docRule (node : ast.Node) : exec (option string) :=
  match node with
  | ast.Node_FuncDecl n => Ret (Some (ast.Text (ast.FuncDecl_Doc n)))
  | ast.Node_GenDecl n =>
      constValue <-
        (if token.Token_eqb (ast.GenDecl_Tok n) token.CONST
         then SpecLoop (ast.GenDecl_Specs n)
         else Ret "") ;;
      match ast.GenDecl_Doc n with
      | Some g =>
          Ret (Some (ast.Text (Some g) ++
                     (if negb (String.eqb constValue "")
                      then constantValueLine constValue
                      else "")))
      | None => Ret None
      end
  | ast.Node_Field n =>
      match ast.Field_Doc n with
      | Some g => Ret (Some (ast.Text (Some g)))
      | None =>
          match ast.Field_Comment n with
          | Some g => Ret (Some (ast.Text (Some g)))
          | None => Ret None
          end
      end
  | ast.Node_Other _ => Ret None
  end.

(** The second loop of [IdentDoc], with the [return doc, nil] after it. *)
Fixpoint docLoop (nodes : list ast.Node) (doc : Doc) : exec (result Doc) :=
  match nodes with
  | [] => Ret (Ok doc)
  | node :: rest =>
      rule <- docRule node ;;
      match rule with
      | Some text => Ret (Ok (set_Doc doc text))
      | None => docLoop rest doc
      end
  end.

(** Lines 113 to 173: title selection, then the documentation walk. *)
Definition titleAndDoc (nodes : list ast.Node) (pkgPath : string)
    (obj : types.Object) (prog : loader.Program) : exec (result Doc) :=
  doc <- titleLoop nodes pkgPath obj prog ;;
  match doc with
  | None => Ret (Err (noDocumentationFound (types.Object_Name obj)))
  | Some doc => docLoop nodes doc
  end.

(** [IdentDoc].  Calling [obj.Pkg()] on a nil object panics. *)
Definition IdentDoc (id : ast.Ident) (info : loader.PackageInfo)
    (prog : loader.Program) : exec (result Doc) :=
  match loader.ObjectOf info id with
  | None => Panic NilDereference
  | Some obj =>
      let pkgPath :=
        match types.Object_Pkg obj with
        | Some pkg => types.Package_Path pkg
        | None => ""
        end in
      match types.Object_dyn obj with
      | types.PkgName Imported =>
          Ret (PackageDoc (loader.Fset prog) (types.Package_Path Imported))
      | _ =>
          let nodes :=
            loader.PathEnclosingInterval prog (types.Object_Pos obj)
              (types.Object_Pos obj) in
          if Nat.eqb (length nodes) 0
          then Ret (Err (noDocumentationFound (types.Object_Name obj)))
          else titleAndDoc nodes pkgPath obj prog
      end
  end.

End Lookup.

(** ** Vocabulary of the properties *)

(** The names a Spec declares. *)
Definition specNames (s : ast.Spec) : list string :=
  match s with
  | ast.Spec_TypeSpec t => [ast.Ident_Name (ast.TypeSpec_Name t)]
  | ast.Spec_ValueSpec v => map ast.Ident_Name (ast.ValueSpec_Names v)
  | ast.Spec_ImportSpec i =>
      match ast.ImportSpec_Name i with
      | Some ident => [ast.Ident_Name ident]
      | None => []
      end
  end.

(** The names declared by all the Specs of a group, in order. *)
Definition groupNames (specs : list ast.Spec) : list string :=
  flat_map specNames specs.

Definition isTypeSpec (s : ast.Spec) : bool :=
  match s with ast.Spec_TypeSpec _ => true | _ => false end.

Definition isValueSpec (s : ast.Spec) : bool :=
  match s with ast.Spec_ValueSpec _ => true | _ => false end.

(** go/ast ties the Spec type of a group to its token: a type group holds
    [*ast.TypeSpec] only, a var or const group [*ast.ValueSpec] only. *)
Definition typeGroup (specs : list ast.Spec) : bool :=
  forallb isTypeSpec specs.

Definition valueGroup (specs : list ast.Spec) : bool :=
  forallb isValueSpec specs.

Definition Spec_Doc (s : ast.Spec) : option ast.CommentGroup :=
  match s with
  | ast.Spec_TypeSpec t => ast.TypeSpec_Doc t
  | ast.Spec_ValueSpec v => ast.ValueSpec_Doc v
  | ast.Spec_ImportSpec i => ast.ImportSpec_Doc i
  end.

(** The texts of the basic-literal initializers of a group, in declaration
    order across all its Specs. *)
Definition literalTexts (specs : list ast.Spec) : list string :=
  flat_map
    (fun s =>
       match s with
       | ast.Spec_ValueSpec v =>
           flat_map
             (fun e =>
                match e with
                | ast.Expr_BasicLit bl => [ast.BasicLit_Value bl]
                | ast.Expr_Other _ => []
                end)
             (ast.ValueSpec_Values v)
       | _ => []
       end)
    specs.

(** The first non-empty literal initializer of a group, if there is one. *)
Definition firstLiteral (specs : list ast.Spec) : option string :=
  find (fun text => negb (String.eqb text "")) (literalTexts specs).

(** The walk goes past a node when the node's rule does not fire. *)
Definition passes (node : ast.Node) : Prop := docRule node = Ret None.

(** The group whose first Spec is a type Spec or a value Spec. *)
Definition typeOrValueFirst (specs : list ast.Spec) : bool :=
  match specs with
  | s :: _ => isTypeSpec s || isValueSpec s
  | [] => false
  end.

(** The type assertion of [obj] to [*types.PkgName] succeeds. *)
Definition isPkgName (obj : types.Object) : bool :=
  match types.Object_dyn obj with
  | types.PkgName _ => true
  | _ => false
  end.

(** The package path the record carries: empty for an object without a
    package. *)
Definition pkgPathOf (obj : types.Object) : string :=
  match types.Object_Pkg obj with
  | Some pkg => types.Package_Path pkg
  | None => ""
  end.

(** The node path of the definition of an object. *)
Definition pathOf (prog : loader.Program) (obj : types.Object)
  : list ast.Node :=
  loader.PathEnclosingInterval prog (types.Object_Pos obj)
    (types.Object_Pos obj).

(** A node the title selection skips. *)
Definition skipped (node : ast.Node) : Prop := isDeclaration node = false.

(** go/ast has a const declaration hold value Specs only; any other node
    puts no condition on the walk. *)
Definition constWellFormed (node : ast.Node) : bool :=
  match node with
  | ast.Node_GenDecl n =>
      if token.Token_eqb (ast.GenDecl_Tok n) token.CONST
      then valueGroup (ast.GenDecl_Specs n)
      else true
  | _ => true
  end.

Definition isNil {A : Type} (pointer : option A) : bool :=
  match pointer with
  | None => true
  | Some _ => false
  end.

(** A declaration header: a function without doc comment and without
    body, or a group without doc comment that is either no type or value
    group, or holds one Spec without doc comment and has no parentheses. *)
Definition headerNode (nc : ast.Node) : bool :=
  match nc with
  | ast.Node_FuncDecl n =>
      isNil (ast.FuncDecl_Doc n) && isNil (ast.FuncDecl_Body n)
  | ast.Node_GenDecl n =>
      isNil (ast.GenDecl_Doc n) &&
      (negb (typeOrValueFirst (ast.GenDecl_Specs n)) ||
       match ast.GenDecl_Specs n with
       | [s] =>
           isNil (Spec_Doc s) && Z.eqb (ast.GenDecl_Lparen n) 0
           && Z.eqb (ast.GenDecl_Rparen n) 0
       | _ => false
       end)
  | _ => false
  end.

(** ** Sample inputs *)

Definition ident (name : string) : ast.Ident :=
  {| ast.Ident_NamePos := 0%Z; ast.Ident_Name := name |}.

Definition comment (text : string) : option ast.CommentGroup :=
  Some {| ast.CommentGroup_text := text |}.

Definition intLit (text : string) : ast.Expr :=
  ast.Expr_BasicLit
    {| ast.BasicLit_ValuePos := 0%Z; ast.BasicLit_Kind := token.INT;
       ast.BasicLit_Value := text |}.

Definition valueSpec (names : list string) (values : list ast.Expr)
  : ast.Spec :=
  ast.Spec_ValueSpec
    {| ast.ValueSpec_Doc := None;
       ast.ValueSpec_Names := map ident names;
       ast.ValueSpec_Type := None;
       ast.ValueSpec_Values := values;
       ast.ValueSpec_Comment := None |}.

Definition typeSpec (name : string) (doc : option ast.CommentGroup)
  : ast.Spec :=
  ast.Spec_TypeSpec
    {| ast.TypeSpec_Doc := doc;
       ast.TypeSpec_Name := ident name;
       ast.TypeSpec_Type := ast.Expr_Other "struct{}";
       ast.TypeSpec_Comment := None |}.

Definition group (doc : option ast.CommentGroup) (tok : token.Token)
    (specs : list ast.Spec) : ast.GenDecl :=
  {| ast.GenDecl_Doc := doc; ast.GenDecl_TokPos := 1%Z;
     ast.GenDecl_Tok := tok; ast.GenDecl_Lparen := 7%Z;
     ast.GenDecl_Specs := specs; ast.GenDecl_Rparen := 40%Z |}.

(** [// Limits of the queue.] over [const ( A = 1; B = 2 )] *)
Definition constAB : ast.GenDecl :=
  group (comment "Limits of the queue.") token.CONST
    [valueSpec ["A"] [intLit "1"]; valueSpec ["B"] [intLit "2"]].

(** [const ( A = 1; B = 2 )] without a comment *)
Definition constAB_bare : ast.GenDecl :=
  group None token.CONST
    [valueSpec ["A"] [intLit "1"]; valueSpec ["B"] [intLit "2"]].

(** [var f = func() { y := 1; _ = y }] at package level *)
Definition varF : ast.GenDecl :=
  group None token.VAR
    [valueSpec ["f"] [ast.Expr_Other "func() { y := 1; _ = y }"]].

(** [// T holds the settings.] over [type T struct { X int }] *)
Definition typeT : ast.GenDecl :=
  group (comment "T holds the settings.") token.TYPE [typeSpec "T" None].

Definition field (name : string) (doc cmt : option ast.CommentGroup)
  : ast.Field :=
  {| ast.Field_Doc := doc; ast.Field_Names := [ident name];
     ast.Field_Type := ast.Expr_Other "int"; ast.Field_Tag := None;
     ast.Field_Comment := cmt |}.

Definition funcDecl (name : string) (doc : option ast.CommentGroup)
  : ast.FuncDecl :=
  {| ast.FuncDecl_Doc := doc; ast.FuncDecl_Recv := None;
     ast.FuncDecl_Name := ident name;
     ast.FuncDecl_Type :=
       {| ast.FuncType_Func := 0%Z; ast.FuncType_Params := [];
          ast.FuncType_Results := None |};
     ast.FuncDecl_Body :=
       Some {| ast.BlockStmt_Lbrace := 0%Z; ast.BlockStmt_Rbrace := 0%Z |} |}.

Definition mainPkg : types.Package :=
  {| types.Package_Path := "example.org/app"; types.Package_Name := "main" |}.

Definition fmtPkg : types.Package :=
  {| types.Package_Path := "fmt"; types.Package_Name := "fmt" |}.

Definition object (dyn : types.ObjectType) (name : string)
    (pos : token.Pos) (str : string) : types.Object :=
  {| types.Object_dyn := dyn; types.Object_Name := name;
     types.Object_Pkg := Some mainPkg; types.Object_Pos := pos;
     types.Object_String := str |}.

Definition tokenText (tok : token.Token) : string :=
  match tok with
  | token.CONST => "const"
  | token.VAR => "var"
  | token.TYPE => "type"
  | token.IMPORT => "import"
  | _ => ""
  end.

(** A sample printer: the keyword and the declared names of a group, the
    name of a function, and an error for any other node. *)
Definition samplePrinter (fset : token.FileSet) (node : ast.Node)
  : result string :=
  match node with
  | ast.Node_FuncDecl n =>
      Ok ("func " ++ ast.Ident_Name (ast.FuncDecl_Name n))
  | ast.Node_GenDecl n =>
      Ok (tokenText (ast.GenDecl_Tok n) ++ " " ++
          String.concat ", " (groupNames (ast.GenDecl_Specs n)))
  | _ => Err "unsupported node"
  end.

(** A sample package lookup that knows the package fmt. *)
Definition samplePackages (importPath : string) : result (string * string) :=
  if String.eqb importPath "fmt"
  then Ok ("fmt", "Package fmt implements formatted I/O.")
  else Err ("cannot find package " ++ importPath).

(** A package information that resolves every identifier to [obj]. *)
Definition infoOf (obj : types.Object) : loader.PackageInfo :=
  {| loader.ObjectOf := fun _ => Some obj |}.

(** A program whose enclosing path is [nodes] at every position. *)
Definition programOf (nodes : list ast.Node) : loader.Program :=
  {| loader.Fset := {| token.FileSet_base := 1%Z |};
     loader.PathEnclosingInterval := fun _ _ => nodes |}.

(** [var y] declared by [y := 1] inside the function literal of [varF] *)
Definition objY : types.Object := object types.Var "y" 30%Z "var y int".

(** The constant [B] of [constAB] *)
Definition objB : types.Object :=
  object types.Const "B" 30%Z "const example.org/app.B untyped int".

(** The node path of [y] in [var f = func() { y := 1; _ = y }] *)
Definition pathOfY : list ast.Node :=
  [ast.Node_Other "*ast.Ident"; ast.Node_Other "*ast.AssignStmt";
   ast.Node_Other "*ast.BlockStmt"; ast.Node_Other "*ast.FuncLit";
   ast.Node_Other "*ast.ValueSpec"; ast.Node_GenDecl varF;
   ast.Node_Other "*ast.File"].

(** The record title selection hands to the walk, for a symbol of the
    sample package *)
Definition sampleDoc (name title : string) : Doc :=
  {| Import := "example.org/app"; Name := name; Title := title;
     DocText := "" |}.

(** The node path of [B] in [constAB] *)
Definition pathOfB : list ast.Node :=
  [ast.Node_Other "*ast.Ident"; ast.Node_Other "*ast.ValueSpec";
   ast.Node_GenDecl constAB; ast.Node_Other "*ast.File"].

(** The node path of [B] in [constAB_bare] *)
Definition pathOfB_bare : list ast.Node :=
  [ast.Node_Other "*ast.Ident"; ast.Node_Other "*ast.ValueSpec";
   ast.Node_GenDecl constAB_bare; ast.Node_Other "*ast.File"].

(** The field [X] of [type T struct { X int }], without any comment *)
Definition fieldX : ast.Field := field "X" None None.

(** The node path of the field [X] in [typeT] *)
Definition pathOfX : list ast.Node :=
  [ast.Node_Other "*ast.Ident"; ast.Node_Field fieldX;
   ast.Node_Other "*ast.FieldList"; ast.Node_Other "*ast.StructType";
   ast.Node_Other "*ast.TypeSpec"; ast.Node_GenDecl typeT;
   ast.Node_Other "*ast.File"].

(** The alias [f] of [import f "fmt"] *)
Definition objF : types.Object :=
  object (types.PkgName fmtPkg) "f" 9%Z "package f (fmt)".

(** The spec's struct field with a trailing comment only *)
Definition fieldTimeout : ast.Field :=
  field "Timeout" None (comment "units: ms").

(** The spec's function with the leading comment [// Foo does X.] *)
Definition funcFoo : ast.FuncDecl :=
  funcDecl "Foo" (comment ("Foo does X." ++ newline)).

(** A node path without any declaration *)
Definition pathOfNothing : list ast.Node :=
  [ast.Node_Other "*ast.Ident"; ast.Node_Other "*ast.File"].

(** The constant [A] of [constAB] *)
Definition objA : types.Object :=
  object types.Const "A" 20%Z "const example.org/app.A untyped int".

(** [// Retries allowed.] over [var limit = 3] *)
Definition varLimit : ast.GenDecl :=
  group (comment "Retries allowed.") token.VAR
    [valueSpec ["limit"] [intLit "3"]].

(** A const group that go/ast never builds: a type Spec after the first
    constant *)
Definition constMixed : ast.GenDecl :=
  group (comment "Mixed.") token.CONST
    [valueSpec ["A"] [intLit "1"]; typeSpec "T" None].

(** The function [Foo] and its node path *)
Definition objFoo : types.Object :=
  object types.Func "Foo" 5%Z "func example.org/app.Foo(x int) int".

Definition pathOfFoo : list ast.Node :=
  [ast.Node_Other "*ast.Ident"; ast.Node_FuncDecl funcFoo;
   ast.Node_Other "*ast.File"].

(** The field [Timeout] and its node path inside [typeT] *)
Definition objTimeout : types.Object :=
  object types.Var "Timeout" 12%Z "field Timeout int".

Definition pathOfTimeout : list ast.Node :=
  [ast.Node_Other "*ast.Ident"; ast.Node_Field fieldTimeout;
   ast.Node_Other "*ast.FieldList"; ast.Node_Other "*ast.StructType";
   ast.Node_Other "*ast.TypeSpec"; ast.Node_GenDecl typeT;
   ast.Node_Other "*ast.File"].

(** A printer that refuses every node that is no declaration header *)
Definition strictPrinter (fset : token.FileSet) (node : ast.Node)
  : result string :=
  if headerNode node then samplePrinter fset node
  else Err "not a declaration header".

(** The value Spec [B = 2] *)
Definition specB : ast.ValueSpec :=
  {| ast.ValueSpec_Doc := None;
     ast.ValueSpec_Names := [ident "B"];
     ast.ValueSpec_Type := None;
     ast.ValueSpec_Values := [intLit "2"];
     ast.ValueSpec_Comment := None |}.

(** The copy [const B = 2] that [constAB] is rendered from for [B] *)
Definition constB_copy : ast.GenDecl :=
  {| ast.GenDecl_Doc := None; ast.GenDecl_TokPos := 1%Z;
     ast.GenDecl_Tok := token.CONST; ast.GenDecl_Lparen := 0%Z;
     ast.GenDecl_Specs := [ast.Spec_ValueSpec specB];
     ast.GenDecl_Rparen := 0%Z |}.

(** The records of the lookups of [A] and of [B] in [constAB] *)
Definition docOfAB (name : string) : Doc :=
  {| Import := "example.org/app"; Name := name;
     Title := "const " ++ name;
     DocText := "Limits of the queue." ++ newline ++ "Constant Value: 1" |}.

(** * Properties *)

(** ** The Spec lookups *)

Lemma hasName_In (names : list ast.Ident) (symbol : string) :
  hasName names symbol = true <-> In symbol (map ast.Ident_Name names).
Proof.
  induction names as [|a names IH]; simpl.
  - split; [discriminate | contradiction].
  - destruct (String.eqb (ast.Ident_Name a) symbol) eqn:E.
    + apply String.eqb_eq in E. split; auto.
    + apply String.eqb_neq in E. rewrite IH. split; auto.
      intros [H|H]; [congruence | assumption].
Qed.

Lemma groupNames_cons (s : ast.Spec) (specs : list ast.Spec) :
  groupNames (s :: specs) = (specNames s ++ groupNames specs)%list.
Proof. reflexivity. Qed.

Lemma groupNames_app (pre post : list ast.Spec) :
  groupNames (pre ++ post)%list = (groupNames pre ++ groupNames post)%list.
Proof. unfold groupNames. apply flat_map_app. Qed.

Lemma findTypeSpec_loop_declared (specs : list ast.Spec) (symbol : string) :
  In symbol (groupNames specs) -> findTypeSpec_loop specs symbol <> Ret None.
Proof.
  induction specs as [|s specs IH]; simpl; [contradiction|].
  intros H. destruct s as [i|v|t]; try discriminate.
  destruct (String.eqb symbol _) eqn:E; [discriminate|].
  apply String.eqb_neq in E. apply IH.
  apply in_app_or in H. destruct H as [[H|[]]|H]; [congruence | exact H].
Qed.

Lemma findVarSpec_loop_declared (specs : list ast.Spec) (symbol : string) :
  In symbol (groupNames specs) -> findVarSpec_loop specs symbol <> Ret None.
Proof.
  induction specs as [|s specs IH]; simpl; [contradiction|].
  intros H. destruct s as [i|v|t]; try discriminate.
  destruct (hasName _ symbol) eqn:E; [discriminate|].
  apply IH. apply in_app_or in H. destruct H as [H|H]; [|exact H].
  simpl in H. apply hasName_In in H. congruence.
Qed.

Lemma findTypeSpec_loop_absent (specs : list ast.Spec) (symbol : string) :
  typeGroup specs = true -> ~ In symbol (groupNames specs) ->
  findTypeSpec_loop specs symbol = Ret None.
Proof.
  induction specs as [|s specs IH]; simpl; [reflexivity|].
  intros U H. apply andb_prop in U. destruct U as [Us U].
  destruct s as [i|v|t]; try discriminate.
  destruct (String.eqb symbol _) eqn:E.
  - apply String.eqb_eq in E. exfalso. apply H. simpl. left. congruence.
  - apply IH; [exact U|]. intros C. apply H. simpl. right. exact C.
Qed.

Lemma findVarSpec_loop_absent (specs : list ast.Spec) (symbol : string) :
  valueGroup specs = true -> ~ In symbol (groupNames specs) ->
  findVarSpec_loop specs symbol = Ret None.
Proof.
  induction specs as [|s specs IH]; simpl; [reflexivity|].
  intros U H. apply andb_prop in U. destruct U as [Us U].
  destruct s as [i|v|t]; try discriminate.
  destruct (hasName _ symbol) eqn:E.
  - apply hasName_In in E. exfalso. apply H. apply in_or_app. left. exact E.
  - apply IH; [exact U|]. intros C. apply H. apply in_or_app. right. exact C.
Qed.

(** In a type group that declares [symbol], the lookup returns the first
    Spec that declares it. *)
Lemma findTypeSpec_loop_first (specs : list ast.Spec) (symbol : string) :
  typeGroup specs = true -> In symbol (groupNames specs) ->
  exists pre t post,
    specs = (pre ++ ast.Spec_TypeSpec t :: post)%list /\
    ~ In symbol (groupNames pre) /\
    In symbol (specNames (ast.Spec_TypeSpec t)) /\
    findTypeSpec_loop specs symbol = Ret (Some t).
Proof.
  induction specs as [|s specs IH]; simpl; [contradiction|].
  intros U H. apply andb_prop in U. destruct U as [Us U].
  destruct s as [i|v|t]; try discriminate.
  destruct (String.eqb symbol _) eqn:E.
  - apply String.eqb_eq in E. exists [], t, specs. simpl. auto.
  - apply String.eqb_neq in E.
    apply in_app_or in H. destruct H as [[H|[]]|H]; [congruence|].
    destruct (IH U H) as (pre & t' & post & -> & Hpre & Ht & Hf).
    exists (ast.Spec_TypeSpec t :: pre), t', post.
    repeat split; auto.
    simpl. intros [C|C]; [congruence | exact (Hpre C)].
Qed.

Lemma findVarSpec_loop_first (specs : list ast.Spec) (symbol : string) :
  valueGroup specs = true -> In symbol (groupNames specs) ->
  exists pre v post,
    specs = (pre ++ ast.Spec_ValueSpec v :: post)%list /\
    ~ In symbol (groupNames pre) /\
    In symbol (specNames (ast.Spec_ValueSpec v)) /\
    findVarSpec_loop specs symbol = Ret (Some v).
Proof.
  induction specs as [|s specs IH]; simpl; [contradiction|].
  intros U H. apply andb_prop in U. destruct U as [Us U].
  destruct s as [i|v|t]; try discriminate.
  destruct (hasName _ symbol) eqn:E.
  - apply hasName_In in E. exists [], v, specs. simpl. auto.
  - apply in_app_or in H. destruct H as [H|H].
    + simpl in H. apply hasName_In in H. congruence.
    + destruct (IH U H) as (pre & v' & post & -> & Hpre & Hv & Hf).
      exists (ast.Spec_ValueSpec v :: pre), v', post.
      repeat split; auto.
      rewrite groupNames_cons. intros C. apply in_app_or in C.
      destruct C as [C|C]; [|exact (Hpre C)].
      simpl in C. apply hasName_In in C. congruence.
Qed.

Lemma findTypeSpec_loop_panic (specs : list ast.Spec) (symbol : string)
    (p : panic) :
  findTypeSpec_loop specs symbol = Panic p -> p = InterfaceConversion.
Proof.
  induction specs as [|s specs IH]; simpl; [discriminate|].
  destruct s as [i|v|t]; try congruence.
  destruct (String.eqb symbol _); [discriminate | exact IH].
Qed.

Lemma findVarSpec_loop_panic (specs : list ast.Spec) (symbol : string)
    (p : panic) :
  findVarSpec_loop specs symbol = Panic p -> p = InterfaceConversion.
Proof.
  induction specs as [|s specs IH]; simpl; [discriminate|].
  destruct s as [i|v|t]; try congruence.
  destruct (hasName _ symbol); [discriminate | exact IH].
Qed.

Lemma findTypeSpec_loop_missing (specs : list ast.Spec) (symbol : string) :
  ~ In symbol (groupNames specs) ->
  forall t, findTypeSpec_loop specs symbol <> Ret (Some t).
Proof.
  induction specs as [|s specs IH]; simpl; [discriminate|].
  intros H t'. destruct s as [i|v|t]; try discriminate.
  destruct (String.eqb symbol _) eqn:E.
  - apply String.eqb_eq in E. exfalso. apply H. simpl. left. congruence.
  - apply IH. intros C. apply H. simpl. right. exact C.
Qed.

Lemma findVarSpec_loop_missing (specs : list ast.Spec) (symbol : string) :
  ~ In symbol (groupNames specs) ->
  forall v, findVarSpec_loop specs symbol <> Ret (Some v).
Proof.
  induction specs as [|s specs IH]; simpl; [discriminate|].
  intros H v'. destruct s as [i|v|t]; try discriminate.
  destruct (hasName _ symbol) eqn:E.
  - apply hasName_In in E. exfalso. apply H. apply in_or_app. left. exact E.
  - apply IH. intros C. apply H. apply in_or_app. right. exact C.
Qed.

Lemma typeGroup_not_value (s : ast.Spec) (specs : list ast.Spec) :
  isValueSpec s = true -> typeGroup (s :: specs) = false.
Proof. destruct s; simpl; congruence. Qed.

Lemma valueGroup_not_type (s : ast.Spec) (specs : list ast.Spec) :
  isTypeSpec s = true -> valueGroup (s :: specs) = false.
Proof. destruct s; simpl; congruence. Qed.

(** ** Rendering *)

Section Rendering.

Variable Fprint : token.FileSet -> ast.Node -> result string.

(** The fallbacks of [formatNode]: a field, a node of any other kind, and
    a printer error all give [obj.String()]. *)
Lemma formatNode_fallback (obj : types.Object) (prog : loader.Program) :
  (forall n, formatNode Fprint (ast.Node_Field n) obj prog
             = Ret (types.Object_String obj)) /\
  (forall dyn, formatNode Fprint (ast.Node_Other dyn) obj prog
               = Ret (types.Object_String obj)) /\
  (forall nc e, Fprint (loader.Fset prog) nc = Err e ->
                printNode Fprint nc obj prog = types.Object_String obj) /\
  (forall n, formatNode Fprint (ast.Node_FuncDecl n) obj prog
             = Ret (printNode Fprint
                      (ast.Node_FuncDecl (FuncDecl_header n)) obj prog)).
Proof.
  repeat split; intros; try reflexivity.
  unfold printNode. rewrite H. reflexivity.
Qed.

(** C10.  In a group whose first Spec is a type or value Spec, the nil
    branch of the Spec lookup cannot be reached when the name of the
    symbol is among the names the group declares, and the rendering then
    never dereferences nil; when the name is not among them the rendering
    panics, and in a group of one Spec kind the panic is the dereference
    of the nil the lookup returned. *)
Theorem formatNode_nil_lookup (n : ast.GenDecl) (obj : types.Object)
    (prog : loader.Program) :
  typeOrValueFirst (ast.GenDecl_Specs n) = true ->
  (In (types.Object_Name obj) (groupNames (ast.GenDecl_Specs n)) ->
   findTypeSpec n (types.Object_Name obj) <> Ret None /\
   findVarSpec n (types.Object_Name obj) <> Ret None /\
   formatNode Fprint (ast.Node_GenDecl n) obj prog <> Panic NilDereference /\
   (typeGroup (ast.GenDecl_Specs n) || valueGroup (ast.GenDecl_Specs n)
      = true ->
    exists title, formatNode Fprint (ast.Node_GenDecl n) obj prog
                  = Ret title))
  /\
  (~ In (types.Object_Name obj) (groupNames (ast.GenDecl_Specs n)) ->
   (exists p, formatNode Fprint (ast.Node_GenDecl n) obj prog = Panic p) /\
   (typeGroup (ast.GenDecl_Specs n) || valueGroup (ast.GenDecl_Specs n)
      = true ->
    formatNode Fprint (ast.Node_GenDecl n) obj prog
      = Panic NilDereference)).
Proof.
  intros F. unfold formatNode, formatNode_GenDecl, findTypeSpec, findVarSpec.
  destruct (ast.GenDecl_Specs n) as [|s specs] eqn:S; [discriminate|].
  set (symbol := types.Object_Name obj).
  split.
  - intros D.
    pose proof (findTypeSpec_loop_declared (s :: specs) symbol D) as HT.
    pose proof (findVarSpec_loop_declared (s :: specs) symbol D) as HV.
    repeat split; auto.
    + destruct s as [i|v|t]; [discriminate| |].
      * destruct (findVarSpec_loop (ast.Spec_ValueSpec v :: specs) symbol)
          as [[r|]|p] eqn:E; cbn [bind]; try discriminate.
        -- congruence.
        -- apply findVarSpec_loop_panic in E. subst p. discriminate.
      * destruct (findTypeSpec_loop (ast.Spec_TypeSpec t :: specs) symbol)
          as [[r|]|p] eqn:E; cbn [bind]; try discriminate.
        -- congruence.
        -- apply findTypeSpec_loop_panic in E. subst p. discriminate.
    + intros U. destruct s as [i|v|t]; [discriminate| |].
      * rewrite typeGroup_not_value, orb_false_l in U by reflexivity.
        destruct (findVarSpec_loop_first _ _ U D)
          as (pre & r & post & _ & _ & _ & ->).
        cbn [bind]. eexists. reflexivity.
      * rewrite valueGroup_not_type, orb_false_r in U by reflexivity.
        destruct (findTypeSpec_loop_first _ _ U D)
          as (pre & r & post & _ & _ & _ & ->).
        cbn [bind]. eexists. reflexivity.
  - intros D. split.
    + destruct s as [i|v|t]; [discriminate| |].
      * destruct (findVarSpec_loop (ast.Spec_ValueSpec v :: specs) symbol)
          as [[r|]|p] eqn:E; cbn [bind].
        -- exfalso. exact (findVarSpec_loop_missing _ _ D r E).
        -- eexists. reflexivity.
        -- eexists. reflexivity.
      * destruct (findTypeSpec_loop (ast.Spec_TypeSpec t :: specs) symbol)
          as [[r|]|p] eqn:E; cbn [bind].
        -- exfalso. exact (findTypeSpec_loop_missing _ _ D r E).
        -- eexists. reflexivity.
        -- eexists. reflexivity.
    + intros U. destruct s as [i|v|t]; [discriminate| |].
      * rewrite typeGroup_not_value, orb_false_l in U by reflexivity.
        rewrite (findVarSpec_loop_absent _ _ U D). reflexivity.
      * rewrite valueGroup_not_type, orb_false_r in U by reflexivity.
        rewrite (findTypeSpec_loop_absent _ _ U D). reflexivity.
Qed.

(** C5.  In a type group or a value group that declares the name of the
    symbol, the rendering is the print of a copy of the group that has no
    doc comment, no parentheses, and as its only Spec the first Spec that
    declares the name, with that Spec's doc comment cleared and its
    names, type, values and trailing comment kept. *)
Theorem formatNode_group_only_target (n : ast.GenDecl) (obj : types.Object)
    (prog : loader.Program) :
  typeGroup (ast.GenDecl_Specs n) || valueGroup (ast.GenDecl_Specs n)
    = true ->
  In (types.Object_Name obj) (groupNames (ast.GenDecl_Specs n)) ->
  exists pre s post,
    ast.GenDecl_Specs n = (pre ++ s :: post)%list /\
    ~ In (types.Object_Name obj) (groupNames pre) /\
    In (types.Object_Name obj) (specNames s) /\
    formatNode Fprint (ast.Node_GenDecl n) obj prog
    = Ret (printNode Fprint
             (ast.Node_GenDecl
                {| ast.GenDecl_Doc := None;
                   ast.GenDecl_TokPos := ast.GenDecl_TokPos n;
                   ast.GenDecl_Tok := ast.GenDecl_Tok n;
                   ast.GenDecl_Lparen := token.NoPos;
                   ast.GenDecl_Specs :=
                     [match s with
                      | ast.Spec_TypeSpec t =>
                          ast.Spec_TypeSpec
                            {| ast.TypeSpec_Doc := None;
                               ast.TypeSpec_Name := ast.TypeSpec_Name t;
                               ast.TypeSpec_Type := ast.TypeSpec_Type t;
                               ast.TypeSpec_Comment :=
                                 ast.TypeSpec_Comment t |}
                      | ast.Spec_ValueSpec v =>
                          ast.Spec_ValueSpec
                            {| ast.ValueSpec_Doc := None;
                               ast.ValueSpec_Names := ast.ValueSpec_Names v;
                               ast.ValueSpec_Type := ast.ValueSpec_Type v;
                               ast.ValueSpec_Values :=
                                 ast.ValueSpec_Values v;
                               ast.ValueSpec_Comment :=
                                 ast.ValueSpec_Comment v |}
                      | ast.Spec_ImportSpec i => ast.Spec_ImportSpec i
                      end];
                   ast.GenDecl_Rparen := token.NoPos |})
             obj prog).
Proof.
  intros U D. unfold formatNode, formatNode_GenDecl, findTypeSpec, findVarSpec.
  destruct (ast.GenDecl_Specs n) as [|s specs] eqn:S; [contradiction|].
  set (symbol := types.Object_Name obj) in *.
  destruct s as [i|v|t]; [discriminate| |].
  - rewrite typeGroup_not_value, orb_false_l in U by reflexivity.
    destruct (findVarSpec_loop_first _ _ U D)
      as (pre & r & post & E & Hpre & Hr & ->).
    exists pre, (ast.Spec_ValueSpec r), post. cbn [bind].
    repeat split; auto.
  - rewrite valueGroup_not_type, orb_false_r in U by reflexivity.
    destruct (findTypeSpec_loop_first _ _ U D)
      as (pre & r & post & E & Hpre & Hr & ->).
    exists pre, (ast.Spec_TypeSpec r), post. cbn [bind].
    repeat split; auto.
Qed.

(** C6.  The rendering is not total.  For the variable [y] declared inside
    the function literal of [var f = func() { y := 1; _ = y }], the first
    declaration on the node path is the group of [f]; [findVarSpec] finds
    no Spec named [y] there and returns nil, and [formatNode] dereferences
    it: the rendering, and with it the whole lookup, panics whatever the
    printer does. *)
Theorem formatNode_panics_on_undeclared_name
    (packageInfo : string -> result (string * string))
    (prog : loader.Program) :
  formatNode Fprint (ast.Node_GenDecl varF) objY prog
    = Panic NilDereference /\
  IdentDoc Fprint packageInfo (ident "y") (infoOf objY) (programOf pathOfY)
    = Panic NilDereference.
Proof. split; reflexivity. Qed.

End Rendering.

(** ** The documentation walk *)

(** The walk skips a prefix of nodes whose rules do not fire. *)
Lemma docLoop_passes (pre rest : list ast.Node) (doc : Doc) :
  Forall passes pre -> docLoop (pre ++ rest) doc = docLoop rest doc.
Proof.
  induction 1 as [|node pre P _ IH]; [reflexivity|].
  simpl. rewrite P. exact IH.
Qed.

(** The walk only ever writes the documentation text of the record. *)
Lemma docLoop_keeps_title (nodes : list ast.Node) (doc doc' : Doc) :
  docLoop nodes doc = Ret (Ok doc') ->
  Import doc' = Import doc /\ Name doc' = Name doc /\
  Title doc' = Title doc.
Proof.
  induction nodes as [|node nodes IH]; simpl.
  - intros E. injection E as <-. auto.
  - destruct (docRule node) as [[text|]|p]; cbn [bind].
    + intros E. injection E as <-. auto.
    + exact IH.
    + discriminate.
Qed.

Lemma find_app_first {A : Type} (f : A -> bool) (l1 l2 : list A) :
  find f (l1 ++ l2) =
  match find f l1 with
  | Some x => Some x
  | None => find f l2
  end.
Proof.
  induction l1 as [|a l1 IH]; simpl; [reflexivity|].
  destruct (f a); [reflexivity | exact IH].
Qed.

(** The scan of one Spec's values finds its first non-empty literal. *)
Lemma valueLoop_find (values : list ast.Expr) :
  valueLoop values =
  find (fun text => negb (String.eqb text ""))
    (flat_map
       (fun e =>
          match e with
          | ast.Expr_BasicLit bl => [ast.BasicLit_Value bl]
          | ast.Expr_Other _ => []
          end)
       values).
Proof.
  induction values as [|e values IH]; simpl; [reflexivity|].
  destruct e as [bl|src]; simpl; [|exact IH].
  destruct (negb (String.eqb (ast.BasicLit_Value bl) "")); auto.
Qed.

(** On a value group, [SpecLoop] computes the first non-empty literal of
    the whole group, and the empty string when there is none. *)
Lemma SpecLoop_firstLiteral (specs : list ast.Spec) :
  valueGroup specs = true ->
  SpecLoop specs =
  Ret (match firstLiteral specs with
       | Some literal => literal
       | None => ""
       end).
Proof.
  unfold firstLiteral.
  induction specs as [|s specs IH]; simpl; [reflexivity|].
  intros U. apply andb_prop in U. destruct U as [Us U].
  destruct s as [i|v|t]; try discriminate.
  rewrite find_app_first, <- valueLoop_find.
  destruct (valueLoop (ast.ValueSpec_Values v)); [reflexivity | exact (IH U)].
Qed.

Lemma firstLiteral_nonempty (specs : list ast.Spec) (literal : string) :
  firstLiteral specs = Some literal -> String.eqb literal "" = false.
Proof.
  unfold firstLiteral. intros E. apply find_some in E.
  destruct E as [_ E]. apply negb_true_iff in E. exact E.
Qed.

(** C1.  When the walk reaches a const group of value Specs, the literal
    is the first non-empty basic-literal initializer of the whole group;
    a group with a doc comment ends the walk with the comment text, and
    the constant-value line after it exactly when there is such a literal;
    a group without a doc comment lets the walk go on with the nodes
    further out. *)
Theorem docLoop_const_group (pre : list ast.Node) (n : ast.GenDecl)
    (rest : list ast.Node) (doc : Doc) :
  Forall passes pre ->
  ast.GenDecl_Tok n = token.CONST ->
  valueGroup (ast.GenDecl_Specs n) = true ->
  match ast.GenDecl_Doc n with
  | Some g =>
      docLoop (pre ++ ast.Node_GenDecl n :: rest) doc
      = Ret (Ok {| Import := Import doc; Name := Name doc;
                   Title := Title doc;
                   DocText :=
                     ast.CommentGroup_text g ++
                     match firstLiteral (ast.GenDecl_Specs n) with
                     | Some literal =>
                         newline ++ "Constant Value: " ++ literal
                     | None => ""
                     end |})
  | None =>
      docLoop (pre ++ ast.Node_GenDecl n :: rest) doc = docLoop rest doc
  end.
Proof.
  intros P T U. rewrite (docLoop_passes _ _ _ P).
  cbn [docLoop docRule]. rewrite T. cbn [token.Token_eqb].
  rewrite (SpecLoop_firstLiteral _ U). cbn [bind].
  destruct (ast.GenDecl_Doc n) as [g|]; cbn [bind]; [|reflexivity].
  destruct (firstLiteral (ast.GenDecl_Specs n)) as [literal|] eqn:L.
  - rewrite (firstLiteral_nonempty _ _ L). reflexivity.
  - reflexivity.
Qed.

(** C2, as amended.  When the walk reaches a field, it ends there with the
    text of the leading doc comment if the field has one, otherwise with
    the text of the trailing comment if the field has one; past a field
    that has neither, the walk goes on with the nodes further out. *)
Theorem docLoop_field (pre : list ast.Node) (n : ast.Field)
    (rest : list ast.Node) (doc : Doc) :
  Forall passes pre ->
  docLoop (pre ++ ast.Node_Field n :: rest) doc =
  match ast.Field_Doc n, ast.Field_Comment n with
  | Some g, _ =>
      Ret (Ok {| Import := Import doc; Name := Name doc;
                 Title := Title doc;
                 DocText := ast.CommentGroup_text g |})
  | None, Some g =>
      Ret (Ok {| Import := Import doc; Name := Name doc;
                 Title := Title doc;
                 DocText := ast.CommentGroup_text g |})
  | None, None => docLoop rest doc
  end.
Proof.
  intros P. rewrite (docLoop_passes _ _ _ P). cbn [docLoop docRule].
  destruct (ast.Field_Doc n); [reflexivity|].
  destruct (ast.Field_Comment n); reflexivity.
Qed.

(** C4.  When the walk reaches a function declaration it ends there, with
    the text of the function's doc comment, which is the empty string for
    a function without one; the nodes further out play no part. *)
Theorem docLoop_func (pre : list ast.Node) (n : ast.FuncDecl)
    (rest : list ast.Node) (doc : Doc) :
  Forall passes pre ->
  docLoop (pre ++ ast.Node_FuncDecl n :: rest) doc
    = Ret (Ok {| Import := Import doc; Name := Name doc;
                 Title := Title doc;
                 DocText :=
                   match ast.FuncDecl_Doc n with
                   | Some g => ast.CommentGroup_text g
                   | None => ""
                   end |}) /\
  (ast.FuncDecl_Doc n = None ->
   docLoop (pre ++ ast.Node_FuncDecl n :: rest) doc
     = Ret (Ok {| Import := Import doc; Name := Name doc;
                  Title := Title doc; DocText := "" |})).
Proof.
  intros P. rewrite (docLoop_passes _ _ _ P). cbn [docLoop docRule bind].
  split; [reflexivity|]. intros ->. reflexivity.
Qed.

(** The walk returns no error. *)
Lemma docLoop_no_error (nodes : list ast.Node) (doc : Doc) (e : error) :
  docLoop nodes doc <> Ret (Err e).
Proof.
  induction nodes as [|m nodes IH]; simpl; [discriminate|].
  destruct (docRule m) as [[text|]|q]; cbn [bind]; try discriminate.
  exact IH.
Qed.

(** A walk in which no rule fires returns the record unchanged. *)
Lemma docLoop_exhausted (nodes : list ast.Node) (doc : Doc) :
  Forall passes nodes -> docLoop nodes doc = Ret (Ok doc).
Proof.
  intros P. rewrite <- (app_nil_r nodes).
  rewrite (docLoop_passes _ _ _ P). reflexivity.
Qed.

(** ** The lookup *)

Section LookupProperties.

Variable Fprint : token.FileSet -> ast.Node -> result string.
Variable packageInfo : string -> result (string * string).

(** For a symbol that is no package alias, [IdentDoc] is the empty-path
    test followed by title selection and the walk. *)
Lemma IdentDoc_declared (id : ast.Ident) (info : loader.PackageInfo)
    (prog : loader.Program) (obj : types.Object) :
  loader.ObjectOf info id = Some obj ->
  isPkgName obj = false ->
  IdentDoc Fprint packageInfo id info prog =
  match pathOf prog obj with
  | [] => Ret (Err (noDocumentationFound (types.Object_Name obj)))
  | nodes => titleAndDoc Fprint nodes (pkgPathOf obj) obj prog
  end.
Proof.
  intros O K. unfold IdentDoc, isPkgName, pathOf, pkgPathOf in *. rewrite O.
  destruct (types.Object_dyn obj); try discriminate;
    destruct (loader.PathEnclosingInterval prog _ _); reflexivity.
Qed.

(** Title selection skips a prefix without declarations and renders the
    first declaration. *)
Lemma titleLoop_first (pre : list ast.Node) (node : ast.Node)
    (post : list ast.Node) (pkgPath : string) (obj : types.Object)
    (prog : loader.Program) :
  Forall skipped pre -> isDeclaration node = true ->
  titleLoop Fprint (pre ++ node :: post) pkgPath obj prog =
  (title <- formatNode Fprint node obj prog ;;
   Ret (Some {| Import := pkgPath; Name := types.Object_Name obj;
                Title := title; DocText := "" |})).
Proof.
  intros P D. induction P as [|m pre S _ IH]; simpl.
  - rewrite D. reflexivity.
  - rewrite S. exact IH.
Qed.

Lemma titleLoop_none (nodes : list ast.Node) (pkgPath : string)
    (obj : types.Object) (prog : loader.Program) :
  Forall skipped nodes ->
  titleLoop Fprint nodes pkgPath obj prog = Ret None.
Proof.
  induction 1 as [|m nodes S _ IH]; simpl; [reflexivity|].
  rewrite S. exact IH.
Qed.

(** Title selection returns no record only on a path without a
    declaration. *)
Lemma titleLoop_none_inv (nodes : list ast.Node) (pkgPath : string)
    (obj : types.Object) (prog : loader.Program) :
  titleLoop Fprint nodes pkgPath obj prog = Ret None ->
  Forall skipped nodes.
Proof.
  induction nodes as [|m nodes IH]; simpl; [constructor|].
  destruct (isDeclaration m) eqn:D.
  - destruct (formatNode Fprint m obj prog); discriminate.
  - intros E. constructor; [exact D | exact (IH E)].
Qed.

(** An error of title selection and walk is the error of a path without
    a declaration. *)
Lemma titleAndDoc_error (nodes : list ast.Node) (pkgPath : string)
    (obj : types.Object) (prog : loader.Program) (e : error) :
  titleAndDoc Fprint nodes pkgPath obj prog = Ret (Err e) ->
  Forall skipped nodes /\ e = noDocumentationFound (types.Object_Name obj).
Proof.
  unfold titleAndDoc.
  destruct (titleLoop Fprint nodes pkgPath obj prog) as [[doc|]|p] eqn:T;
    cbn [bind]; try discriminate.
  - intros E. exfalso. exact (docLoop_no_error _ _ _ E).
  - intros E. injection E as <-. split; [|reflexivity].
    exact (titleLoop_none_inv _ _ _ _ T).
Qed.

(** The empty-path error and the error of title selection on an empty
    path are the same value, so the lookup of a declared symbol is title
    selection and walk on its node path. *)
Lemma IdentDoc_titleAndDoc (id : ast.Ident) (info : loader.PackageInfo)
    (prog : loader.Program) (obj : types.Object) :
  loader.ObjectOf info id = Some obj ->
  isPkgName obj = false ->
  IdentDoc Fprint packageInfo id info prog =
  titleAndDoc Fprint (pathOf prog obj) (pkgPathOf obj) obj prog.
Proof.
  intros O K. rewrite (IdentDoc_declared _ _ _ _ O K).
  destruct (pathOf prog obj); reflexivity.
Qed.

(** The record of title selection has no documentation text yet. *)
Lemma titleLoop_DocText (nodes : list ast.Node) (pkgPath : string)
    (obj : types.Object) (prog : loader.Program) (doc : Doc) :
  titleLoop Fprint nodes pkgPath obj prog = Ret (Some doc) ->
  DocText doc = "".
Proof.
  induction nodes as [|m nodes IH]; simpl; [discriminate|].
  destruct (isDeclaration m); [|exact IH].
  destruct (formatNode Fprint m obj prog); cbn [bind]; [|discriminate].
  intros E. injection E as <-. reflexivity.
Qed.

(** C3.  For a symbol that is no package alias, the title is the rendering
    of the first node of the path, innermost first, that is a function
    declaration, a declaration group or a field: the lookup is that
    rendering followed by the walk, and the record it returns carries it
    as Title.  On a path without any such node the lookup returns the
    no-documentation error and no record. *)
Theorem IdentDoc_title_first_declaration (id : ast.Ident)
    (info : loader.PackageInfo) (prog : loader.Program)
    (obj : types.Object) :
  loader.ObjectOf info id = Some obj ->
  isPkgName obj = false ->
  (forall pre node post,
     pathOf prog obj = (pre ++ node :: post)%list ->
     Forall skipped pre ->
     isDeclaration node = true ->
     IdentDoc Fprint packageInfo id info prog
     = (title <- formatNode Fprint node obj prog ;;
        docLoop (pathOf prog obj)
          {| Import := pkgPathOf obj; Name := types.Object_Name obj;
             Title := title; DocText := "" |}) /\
     (forall doc,
        IdentDoc Fprint packageInfo id info prog = Ret (Ok doc) ->
        formatNode Fprint node obj prog = Ret (Title doc)))
  /\
  (Forall skipped (pathOf prog obj) ->
   IdentDoc Fprint packageInfo id info prog
   = Ret (Err (noDocumentationFound (types.Object_Name obj)))).
Proof.
  intros O K. rewrite (IdentDoc_titleAndDoc _ _ _ _ O K).
  unfold titleAndDoc. split.
  - intros pre node post E P D. rewrite E.
    rewrite (titleLoop_first _ _ _ _ _ _ P D).
    destruct (formatNode Fprint node obj prog) as [title|p]; cbn [bind].
    + split; [reflexivity|]. intros doc W.
      apply docLoop_keeps_title in W. destruct W as (_ & _ & W).
      simpl in W. congruence.
    + split; [reflexivity | discriminate].
  - intros P. rewrite (titleLoop_none _ _ _ _ P). reflexivity.
Qed.

(** C7.  For a symbol that is a package alias the lookup is the
    package-level lookup at the path of the imported package: a record it
    returns carries that path and an empty Title, and neither the node
    path of the program nor the printer has any part in the result. *)
Theorem IdentDoc_package_alias (id : ast.Ident)
    (info : loader.PackageInfo) (prog : loader.Program)
    (obj : types.Object) (imported : types.Package) :
  loader.ObjectOf info id = Some obj ->
  types.Object_dyn obj = types.PkgName imported ->
  IdentDoc Fprint packageInfo id info prog
    = Ret (PackageDoc packageInfo (loader.Fset prog)
             (types.Package_Path imported)) /\
  (forall doc,
     IdentDoc Fprint packageInfo id info prog = Ret (Ok doc) ->
     Import doc = types.Package_Path imported /\ Title doc = "") /\
  (forall Fprint' path',
     IdentDoc Fprint' packageInfo id info
       {| loader.Fset := loader.Fset prog;
          loader.PathEnclosingInterval := path' |}
     = IdentDoc Fprint packageInfo id info prog).
Proof.
  intros O K. unfold IdentDoc. rewrite O, K. cbn [loader.Fset].
  split; [reflexivity|]. split.
  - intros doc E. injection E as E. unfold PackageDoc in E.
    destruct (packageInfo (types.Package_Path imported)) as [[name text]|e];
      [|discriminate].
    injection E as <-. split; reflexivity.
  - intros Fprint' path'. reflexivity.
Qed.

(** C8.  For a symbol that is no package alias: on an empty node path the
    lookup returns the not-found error and no record; on any other path
    the lookup is title selection and the walk, so an error it returns
    there is the one of title selection on a path without a declaration. *)
Theorem IdentDoc_empty_path (id : ast.Ident) (info : loader.PackageInfo)
    (prog : loader.Program) (obj : types.Object) :
  loader.ObjectOf info id = Some obj ->
  isPkgName obj = false ->
  (pathOf prog obj = [] ->
   IdentDoc Fprint packageInfo id info prog
   = Ret (Err (noDocumentationFound (types.Object_Name obj)))) /\
  (pathOf prog obj <> [] ->
   IdentDoc Fprint packageInfo id info prog
   = titleAndDoc Fprint (pathOf prog obj) (pkgPathOf obj) obj prog /\
   (forall e,
      IdentDoc Fprint packageInfo id info prog = Ret (Err e) ->
      Forall skipped (pathOf prog obj))).
Proof.
  intros O K. rewrite (IdentDoc_declared _ _ _ _ O K). split.
  - intros ->. reflexivity.
  - intros N. destruct (pathOf prog obj) as [|m nodes]; [contradiction|].
    split; [reflexivity|]. intros e E.
    exact (proj1 (titleAndDoc_error _ _ _ _ _ E)).
Qed.

(** C9.  For a symbol that is no package alias, when title selection has
    produced a record and no rule of the walk fires on any node of the
    path, the lookup returns that record, without error and with an empty
    documentation text. *)
Theorem IdentDoc_walk_exhausted (id : ast.Ident)
    (info : loader.PackageInfo) (prog : loader.Program)
    (obj : types.Object) (doc : Doc) :
  loader.ObjectOf info id = Some obj ->
  isPkgName obj = false ->
  titleLoop Fprint (pathOf prog obj) (pkgPathOf obj) obj prog
    = Ret (Some doc) ->
  Forall passes (pathOf prog obj) ->
  IdentDoc Fprint packageInfo id info prog = Ret (Ok doc) /\
  DocText doc = "".
Proof.
  intros O K T P. rewrite (IdentDoc_titleAndDoc _ _ _ _ O K).
  unfold titleAndDoc. rewrite T. cbn [bind].
  split; [exact (docLoop_exhausted _ _ P) | exact (titleLoop_DocText _ _ _ _ _ T)].
Qed.

End LookupProperties.

(** ** The properties on the sample inputs *)

(** C1 on [const ( A = 1; B = 2 )] under a group comment: the literal of
    the first Spec is reported, whichever constant is looked up. *)
Lemma docLoop_const_group_witness :
  Forall passes [ast.Node_Other "*ast.Ident"; ast.Node_Other "*ast.ValueSpec"]
  /\ ast.GenDecl_Tok constAB = token.CONST
  /\ valueGroup (ast.GenDecl_Specs constAB) = true
  /\ docLoop pathOfB (sampleDoc "B" "const B")
     = Ret (Ok {| Import := "example.org/app"; Name := "B";
                  Title := "const B";
                  DocText :=
                    "Limits of the queue." ++ newline ++ "Constant Value: 1"
               |})
  /\ docLoop pathOfB_bare (sampleDoc "B" "const B")
     = docLoop [ast.Node_Other "*ast.File"] (sampleDoc "B" "const B").
Proof.
  assert (P : Forall passes
                [ast.Node_Other "*ast.Ident"; ast.Node_Other "*ast.ValueSpec"])
    by (repeat constructor).
  split; [exact P|]. split; [reflexivity|]. split; [reflexivity|]. split.
  - exact (docLoop_const_group _ constAB [ast.Node_Other "*ast.File"]
             (sampleDoc "B" "const B") P eq_refl eq_refl).
  - exact (docLoop_const_group _ constAB_bare [ast.Node_Other "*ast.File"]
             (sampleDoc "B" "const B") P eq_refl eq_refl).
Defined.

(** C2, as amended, on a field with a trailing comment only, and on a
    field without any comment inside a documented type. *)
Lemma docLoop_field_witness :
  Forall passes [ast.Node_Other "*ast.Ident"]
  /\ docLoop [ast.Node_Other "*ast.Ident"; ast.Node_Field fieldTimeout;
              ast.Node_GenDecl typeT]
       (sampleDoc "Timeout" "field Timeout int")
     = Ret (Ok {| Import := "example.org/app"; Name := "Timeout";
                  Title := "field Timeout int"; DocText := "units: ms" |})
  /\ docLoop pathOfX (sampleDoc "X" "field X int")
     = docLoop (skipn 2 pathOfX) (sampleDoc "X" "field X int").
Proof.
  assert (P : Forall passes [ast.Node_Other "*ast.Ident"])
    by (repeat constructor).
  split; [exact P|]. split.
  - exact (docLoop_field _ fieldTimeout [ast.Node_GenDecl typeT]
             (sampleDoc "Timeout" "field Timeout int") P).
  - exact (docLoop_field _ fieldX (skipn 2 pathOfX)
             (sampleDoc "X" "field X int") P).
Defined.

(** C2 as stated fails: the rule of a field without a leading and without
    a trailing comment does not fire, and the walk goes on outward past
    the field, here up to the comment of the enclosing type declaration. *)
Lemma docLoop_goes_past_bare_field :
  ast.Field_Doc fieldX = None /\
  ast.Field_Comment fieldX = None /\
  docRule (ast.Node_Field fieldX) = Ret None /\
  docLoop pathOfX (sampleDoc "X" "field X int")
    = Ret (Ok (set_Doc (sampleDoc "X" "field X int")
                 "T holds the settings.")) /\
  docLoop pathOfX (sampleDoc "X" "field X int")
    <> docLoop [ast.Node_Other "*ast.Ident"; ast.Node_Field fieldX]
         (sampleDoc "X" "field X int").
Proof.
  repeat split; try reflexivity. discriminate.
Qed.

(** C4 on a documented function, and on a function without a comment
    that lies inside a documented group. *)
Lemma docLoop_func_witness :
  Forall passes [ast.Node_Other "*ast.Ident"]
  /\ docLoop [ast.Node_Other "*ast.Ident"; ast.Node_FuncDecl funcFoo;
              ast.Node_Other "*ast.File"]
       (sampleDoc "Foo" "func Foo")
     = Ret (Ok {| Import := "example.org/app"; Name := "Foo";
                  Title := "func Foo";
                  DocText := "Foo does X." ++ newline |})
  /\ docLoop [ast.Node_Other "*ast.Ident";
              ast.Node_FuncDecl (funcDecl "bar" None);
              ast.Node_GenDecl typeT]
       (sampleDoc "bar" "func bar")
     = Ret (Ok {| Import := "example.org/app"; Name := "bar";
                  Title := "func bar"; DocText := "" |}).
Proof.
  assert (P : Forall passes [ast.Node_Other "*ast.Ident"])
    by (repeat constructor).
  split; [exact P|]. split.
  - exact (proj1 (docLoop_func _ funcFoo [ast.Node_Other "*ast.File"]
                    (sampleDoc "Foo" "func Foo") P)).
  - exact (proj2 (docLoop_func _ (funcDecl "bar" None)
                    [ast.Node_GenDecl typeT]
                    (sampleDoc "bar" "func bar") P) eq_refl).
Defined.

(** C5 on the constant [B] of [const ( A = 1; B = 2 )]: what is printed
    is [const B = 2]. *)
Lemma formatNode_group_only_target_witness :
  typeGroup (ast.GenDecl_Specs constAB)
    || valueGroup (ast.GenDecl_Specs constAB) = true
  /\ In (types.Object_Name objB) (groupNames (ast.GenDecl_Specs constAB))
  /\ formatNode samplePrinter (ast.Node_GenDecl constAB) objB
       (programOf pathOfB)
     = Ret (printNode samplePrinter
              (ast.Node_GenDecl
                 {| ast.GenDecl_Doc := None; ast.GenDecl_TokPos := 1%Z;
                    ast.GenDecl_Tok := token.CONST;
                    ast.GenDecl_Lparen := 0%Z;
                    ast.GenDecl_Specs :=
                      [ast.Spec_ValueSpec
                         {| ast.ValueSpec_Doc := None;
                            ast.ValueSpec_Names := [ident "B"];
                            ast.ValueSpec_Type := None;
                            ast.ValueSpec_Values := [intLit "2"];
                            ast.ValueSpec_Comment := None |}];
                    ast.GenDecl_Rparen := 0%Z |})
              objB (programOf pathOfB))
  /\ exists pre s post,
       ast.GenDecl_Specs constAB = (pre ++ s :: post)%list /\
       ~ In "B" (groupNames pre) /\
       In "B" (specNames s) /\
       formatNode samplePrinter (ast.Node_GenDecl constAB) objB
         (programOf pathOfB)
       = Ret (printNode samplePrinter
                (ast.Node_GenDecl
                   {| ast.GenDecl_Doc := None;
                      ast.GenDecl_TokPos := ast.GenDecl_TokPos constAB;
                      ast.GenDecl_Tok := ast.GenDecl_Tok constAB;
                      ast.GenDecl_Lparen := token.NoPos;
                      ast.GenDecl_Specs :=
                        [match s with
                         | ast.Spec_TypeSpec t =>
                             ast.Spec_TypeSpec
                               {| ast.TypeSpec_Doc := None;
                                  ast.TypeSpec_Name := ast.TypeSpec_Name t;
                                  ast.TypeSpec_Type := ast.TypeSpec_Type t;
                                  ast.TypeSpec_Comment :=
                                    ast.TypeSpec_Comment t |}
                         | ast.Spec_ValueSpec v =>
                             ast.Spec_ValueSpec
                               {| ast.ValueSpec_Doc := None;
                                  ast.ValueSpec_Names :=
                                    ast.ValueSpec_Names v;
                                  ast.ValueSpec_Type := ast.ValueSpec_Type v;
                                  ast.ValueSpec_Values :=
                                    ast.ValueSpec_Values v;
                                  ast.ValueSpec_Comment :=
                                    ast.ValueSpec_Comment v |}
                         | ast.Spec_ImportSpec i => ast.Spec_ImportSpec i
                         end];
                      ast.GenDecl_Rparen := token.NoPos |})
                objB (programOf pathOfB)).
Proof.
  assert (D : In (types.Object_Name objB)
                (groupNames (ast.GenDecl_Specs constAB)))
    by (simpl; auto).
  split; [reflexivity|]. split; [exact D|]. split; [reflexivity|].
  exact (formatNode_group_only_target samplePrinter constAB objB
           (programOf pathOfB) eq_refl D).
Defined.

(** C10 on a declared name and on a name the group does not declare. *)
Lemma formatNode_nil_lookup_witness :
  typeOrValueFirst (ast.GenDecl_Specs constAB) = true
  /\ typeOrValueFirst (ast.GenDecl_Specs varF) = true
  /\ In (types.Object_Name objB) (groupNames (ast.GenDecl_Specs constAB))
  /\ ~ In (types.Object_Name objY) (groupNames (ast.GenDecl_Specs varF))
  /\ formatNode samplePrinter (ast.Node_GenDecl constAB) objB
       (programOf pathOfB) <> Panic NilDereference
  /\ formatNode samplePrinter (ast.Node_GenDecl varF) objY
       (programOf pathOfY) = Panic NilDereference.
Proof.
  assert (D : In (types.Object_Name objB)
                (groupNames (ast.GenDecl_Specs constAB)))
    by (simpl; auto).
  assert (N : ~ In (types.Object_Name objY)
                  (groupNames (ast.GenDecl_Specs varF)))
    by (simpl; intros [C|[]]; discriminate C).
  split; [reflexivity|]. split; [reflexivity|].
  split; [exact D|]. split; [exact N|]. split.
  - exact (proj1 (proj2 (proj2
             (proj1 (formatNode_nil_lookup samplePrinter constAB objB
                       (programOf pathOfB) eq_refl) D)))).
  - exact (proj2
             (proj2 (formatNode_nil_lookup samplePrinter varF objY
                       (programOf pathOfY) eq_refl) N) eq_refl).
Defined.

(** C3 on the constant [B]: the title is the rendering of the group, the
    first declaration on the path; and on a path without a declaration. *)
Lemma IdentDoc_title_first_declaration_witness :
  loader.ObjectOf (infoOf objB) (ident "B") = Some objB
  /\ isPkgName objB = false
  /\ IdentDoc samplePrinter samplePackages (ident "B") (infoOf objB)
       (programOf pathOfB)
     = (title <- formatNode samplePrinter (ast.Node_GenDecl constAB) objB
                   (programOf pathOfB) ;;
        docLoop pathOfB (sampleDoc "B" title))
  /\ IdentDoc samplePrinter samplePackages (ident "B") (infoOf objB)
       (programOf pathOfNothing)
     = Ret (Err "No documentation found for B").
Proof.
  split; [reflexivity|]. split; [reflexivity|]. split.
  - refine (proj1 (proj1 (IdentDoc_title_first_declaration samplePrinter
                            samplePackages (ident "B") (infoOf objB)
                            (programOf pathOfB) objB eq_refl eq_refl)
                     [ast.Node_Other "*ast.Ident";
                      ast.Node_Other "*ast.ValueSpec"]
                     (ast.Node_GenDecl constAB)
                     [ast.Node_Other "*ast.File"] eq_refl _ eq_refl)).
    repeat constructor.
  - refine (proj2 (IdentDoc_title_first_declaration samplePrinter
                     samplePackages (ident "B") (infoOf objB)
                     (programOf pathOfNothing) objB eq_refl eq_refl) _).
    repeat constructor.
Defined.

(** C7 on the alias [f] of the package fmt, looked up in a program whose
    node path would make the rendering panic. *)
Lemma IdentDoc_package_alias_witness :
  loader.ObjectOf (infoOf objF) (ident "f") = Some objF
  /\ types.Object_dyn objF = types.PkgName fmtPkg
  /\ IdentDoc samplePrinter samplePackages (ident "f") (infoOf objF)
       (programOf pathOfY)
     = Ret (Ok {| Import := "fmt"; Name := "fmt"; Title := "";
                  DocText := "Package fmt implements formatted I/O." |}).
Proof.
  split; [reflexivity|]. split; [reflexivity|].
  exact (proj1 (IdentDoc_package_alias samplePrinter samplePackages
                  (ident "f") (infoOf objF) (programOf pathOfY) objF fmtPkg
                  eq_refl eq_refl)).
Defined.

(** C8 on a symbol whose definition has no enclosing node. *)
Lemma IdentDoc_empty_path_witness :
  loader.ObjectOf (infoOf objB) (ident "B") = Some objB
  /\ isPkgName objB = false
  /\ pathOf (programOf []) objB = []
  /\ IdentDoc samplePrinter samplePackages (ident "B") (infoOf objB)
       (programOf [])
     = Ret (Err "No documentation found for B").
Proof.
  split; [reflexivity|]. split; [reflexivity|]. split; [reflexivity|].
  exact (proj1 (IdentDoc_empty_path samplePrinter samplePackages
                  (ident "B") (infoOf objB) (programOf []) objB
                  eq_refl eq_refl) eq_refl).
Defined.

(** C9 on the constant [B] of a group without any comment. *)
Lemma IdentDoc_walk_exhausted_witness :
  loader.ObjectOf (infoOf objB) (ident "B") = Some objB
  /\ isPkgName objB = false
  /\ titleLoop samplePrinter (pathOf (programOf pathOfB_bare) objB)
       (pkgPathOf objB) objB (programOf pathOfB_bare)
     = Ret (Some (sampleDoc "B" "const B"))
  /\ Forall passes (pathOf (programOf pathOfB_bare) objB)
  /\ IdentDoc samplePrinter samplePackages (ident "B") (infoOf objB)
       (programOf pathOfB_bare)
     = Ret (Ok {| Import := "example.org/app"; Name := "B";
                  Title := "const B"; DocText := "" |}).
Proof.
  assert (P : Forall passes (pathOf (programOf pathOfB_bare) objB))
    by (repeat constructor).
  split; [reflexivity|]. split; [reflexivity|]. split; [reflexivity|].
  split; [exact P|].
  exact (proj1 (IdentDoc_walk_exhausted samplePrinter samplePackages
                  (ident "B") (infoOf objB) (programOf pathOfB_bare) objB
                  (sampleDoc "B" "const B") eq_refl eq_refl eq_refl P)).
Defined.

(** * Further properties of the code *)

(** ** The outcomes of the Spec lookups *)

Lemma not_in_groupNames_cons (s : ast.Spec) (specs : list ast.Spec)
    (symbol : string) :
  ~ In symbol (specNames s) -> ~ In symbol (groupNames specs) ->
  ~ In symbol (groupNames (s :: specs)).
Proof.
  intros A B C. rewrite groupNames_cons in C. apply in_app_or in C.
  destruct C as [C|C]; [exact (A C) | exact (B C)].
Qed.

Lemma findTypeSpec_loop_outcome (specs : list ast.Spec) (symbol : string) :
  match findTypeSpec_loop specs symbol with
  | Ret (Some t) =>
      exists pre post,
        specs = (pre ++ ast.Spec_TypeSpec t :: post)%list /\
        typeGroup pre = true /\
        ~ In symbol (groupNames pre) /\
        ast.Ident_Name (ast.TypeSpec_Name t) = symbol
  | Ret None =>
      typeGroup specs = true /\ ~ In symbol (groupNames specs)
  | Panic p =>
      p = InterfaceConversion /\
      exists pre s post,
        specs = (pre ++ s :: post)%list /\
        typeGroup pre = true /\
        ~ In symbol (groupNames pre) /\
        isTypeSpec s = false
  end.
Proof.
  induction specs as [|s specs IH].
  - simpl. auto.
  - destruct s as [i|v|t].
    + simpl. split; [reflexivity|].
      exists [], (ast.Spec_ImportSpec i), specs. simpl. auto.
    + simpl. split; [reflexivity|].
      exists [], (ast.Spec_ValueSpec v), specs. simpl. auto.
    + cbn [findTypeSpec_loop].
      destruct (String.eqb symbol (ast.Ident_Name (ast.TypeSpec_Name t)))
        eqn:E.
      * apply String.eqb_eq in E. exists [], specs. simpl. auto.
      * apply String.eqb_neq in E.
        assert (N : ~ In symbol (specNames (ast.Spec_TypeSpec t)))
          by (simpl; intros [C|[]]; congruence).
        destruct (findTypeSpec_loop specs symbol) as [[r|]|p].
        -- destruct IH as (pre & post & -> & U & M & Q).
           exists (ast.Spec_TypeSpec t :: pre), post.
           repeat split; auto using not_in_groupNames_cons.
        -- destruct IH as (U & M).
           split; auto using not_in_groupNames_cons.
        -- destruct IH as (-> & pre & s & post & -> & U & M & Q).
           split; [reflexivity|].
           exists (ast.Spec_TypeSpec t :: pre), s, post.
           repeat split; auto using not_in_groupNames_cons.
Qed.

Lemma findVarSpec_loop_outcome (specs : list ast.Spec) (symbol : string) :
  match findVarSpec_loop specs symbol with
  | Ret (Some v) =>
      exists pre post,
        specs = (pre ++ ast.Spec_ValueSpec v :: post)%list /\
        valueGroup pre = true /\
        ~ In symbol (groupNames pre) /\
        In symbol (map ast.Ident_Name (ast.ValueSpec_Names v))
  | Ret None =>
      valueGroup specs = true /\ ~ In symbol (groupNames specs)
  | Panic p =>
      p = InterfaceConversion /\
      exists pre s post,
        specs = (pre ++ s :: post)%list /\
        valueGroup pre = true /\
        ~ In symbol (groupNames pre) /\
        isValueSpec s = false
  end.
Proof.
  induction specs as [|s specs IH].
  - simpl. auto.
  - destruct s as [i|v|t].
    + simpl. split; [reflexivity|].
      exists [], (ast.Spec_ImportSpec i), specs. simpl. auto.
    + cbn [findVarSpec_loop].
      destruct (hasName (ast.ValueSpec_Names v) symbol) eqn:E.
      * apply hasName_In in E. exists [], specs. simpl. auto.
      * assert (N : ~ In symbol (specNames (ast.Spec_ValueSpec v))).
        { simpl. intros C. apply hasName_In in C. congruence. }
        destruct (findVarSpec_loop specs symbol) as [[r|]|p].
        -- destruct IH as (pre & post & -> & U & M & Q).
           exists (ast.Spec_ValueSpec v :: pre), post.
           repeat split; auto using not_in_groupNames_cons.
        -- destruct IH as (U & M).
           split; auto using not_in_groupNames_cons.
        -- destruct IH as (-> & pre & s & post & -> & U & M & Q).
           split; [reflexivity|].
           exists (ast.Spec_ValueSpec v :: pre), s, post.
           repeat split; auto using not_in_groupNames_cons.
    + simpl. split; [reflexivity|].
      exists [], (ast.Spec_TypeSpec t), specs. simpl. auto.
Qed.

(** X1.  The three outcomes of [findTypeSpec].  A Spec it returns is a
    type Spec of the group named [symbol], and every Spec before it is a
    type Spec with another name; nil means that the group holds type
    Specs only, none named [symbol]; and it panics, on the type
    assertion, exactly at the first Spec that is no type Spec when no
    Spec before it is named [symbol]. *)
Theorem findTypeSpec_outcome (decl : ast.GenDecl) (symbol : string) :
  match findTypeSpec decl symbol with
  | Ret (Some t) =>
      exists pre post,
        ast.GenDecl_Specs decl = (pre ++ ast.Spec_TypeSpec t :: post)%list /\
        typeGroup pre = true /\
        ~ In symbol (groupNames pre) /\
        ast.Ident_Name (ast.TypeSpec_Name t) = symbol
  | Ret None =>
      typeGroup (ast.GenDecl_Specs decl) = true /\
      ~ In symbol (groupNames (ast.GenDecl_Specs decl))
  | Panic p =>
      p = InterfaceConversion /\
      exists pre s post,
        ast.GenDecl_Specs decl = (pre ++ s :: post)%list /\
        typeGroup pre = true /\
        ~ In symbol (groupNames pre) /\
        isTypeSpec s = false
  end.
Proof. exact (findTypeSpec_loop_outcome (ast.GenDecl_Specs decl) symbol). Qed.

(** X2.  The three outcomes of [findVarSpec].  A Spec it returns is a
    value Spec of the group that has [symbol] among its names, and every
    Spec before it is a value Spec without that name; nil means that the
    group holds value Specs only, none with the name [symbol]; and it
    panics, on the type assertion, exactly at the first Spec that is no
    value Spec when no Spec before it has the name. *)
Theorem findVarSpec_outcome (decl : ast.GenDecl) (symbol : string) :
  match findVarSpec decl symbol with
  | Ret (Some v) =>
      exists pre post,
        ast.GenDecl_Specs decl
          = (pre ++ ast.Spec_ValueSpec v :: post)%list /\
        valueGroup pre = true /\
        ~ In symbol (groupNames pre) /\
        In symbol (map ast.Ident_Name (ast.ValueSpec_Names v))
  | Ret None =>
      valueGroup (ast.GenDecl_Specs decl) = true /\
      ~ In symbol (groupNames (ast.GenDecl_Specs decl))
  | Panic p =>
      p = InterfaceConversion /\
      exists pre s post,
        ast.GenDecl_Specs decl = (pre ++ s :: post)%list /\
        valueGroup pre = true /\
        ~ In symbol (groupNames pre) /\
        isValueSpec s = false
  end.
Proof. exact (findVarSpec_loop_outcome (ast.GenDecl_Specs decl) symbol). Qed.

(** ** What rendering does and does not do *)

Lemma valueGroup_app (pre post : list ast.Spec) :
  valueGroup (pre ++ post) = valueGroup pre && valueGroup post.
Proof. unfold valueGroup. apply forallb_app. Qed.

Lemma typeGroup_app (pre post : list ast.Spec) :
  typeGroup (pre ++ post) = typeGroup pre && typeGroup post.
Proof. unfold typeGroup. apply forallb_app. Qed.

(** The copy a group is rendered from is a declaration header. *)
Lemma formatNode_GenDecl_header (n : ast.GenDecl) (obj : types.Object)
    (cp : ast.GenDecl) :
  formatNode_GenDecl n obj = Ret cp ->
  headerNode (ast.Node_GenDecl cp) = true.
Proof.
  unfold formatNode_GenDecl, findTypeSpec, findVarSpec.
  destruct (ast.GenDecl_Specs n) as [|s specs] eqn:S.
  - intros E. injection E as <-. simpl. rewrite S. reflexivity.
  - destruct s as [i|v|t].
    + intros E. injection E as <-. simpl. rewrite S. reflexivity.
    + destruct (findVarSpec_loop _ _) as [[r|]|p]; cbn [bind];
        try discriminate.
      intros E. injection E as <-. reflexivity.
    + destruct (findTypeSpec_loop _ _) as [[r|]|p]; cbn [bind];
        try discriminate.
      intros E. injection E as <-. reflexivity.
Qed.

(** The copy a group is rendered from renders as itself. *)
Lemma formatNode_GenDecl_idempotent (n : ast.GenDecl) (obj : types.Object)
    (cp : ast.GenDecl) :
  formatNode_GenDecl n obj = Ret cp -> formatNode_GenDecl cp obj = Ret cp.
Proof.
  unfold formatNode_GenDecl at 1. unfold findTypeSpec, findVarSpec.
  destruct (ast.GenDecl_Specs n) as [|s specs] eqn:S.
  - intros E. injection E as <-. unfold formatNode_GenDecl. simpl.
    rewrite S. reflexivity.
  - destruct s as [i|v|t].
    + intros E. injection E as <-. unfold formatNode_GenDecl. simpl.
      rewrite S. reflexivity.
    + pose proof (findVarSpec_loop_outcome (ast.Spec_ValueSpec v :: specs)
                    (types.Object_Name obj)) as O.
      destruct (findVarSpec_loop _ _) as [[r|]|p]; cbn [bind];
        try discriminate.
      destruct O as (pre & post & _ & _ & _ & N).
      apply hasName_In in N.
      intros E. injection E as <-.
      unfold formatNode_GenDecl, findVarSpec. simpl. rewrite N. reflexivity.
    + pose proof (findTypeSpec_loop_outcome (ast.Spec_TypeSpec t :: specs)
                    (types.Object_Name obj)) as O.
      destruct (findTypeSpec_loop _ _) as [[r|]|p]; cbn [bind];
        try discriminate.
      destruct O as (pre & post & _ & _ & _ & N).
      intros E. injection E as <-.
      unfold formatNode_GenDecl, findTypeSpec. simpl.
      rewrite N, String.eqb_refl. reflexivity.
Qed.

Section RenderingOutcomes.

Variable Fprint : token.FileSet -> ast.Node -> result string.

(** X3.  [formatNode] panics on nothing but a declaration group whose
    first Spec is a type or value Spec.  When it dereferences nil, the
    group holds Specs of one kind and none declares the name of the
    symbol; when the panic is a failed type assertion, the group mixes
    Spec kinds. *)
Theorem formatNode_panic_cause (n : ast.Node) (obj : types.Object)
    (prog : loader.Program) (p : panic) :
  formatNode Fprint n obj prog = Panic p ->
  exists g,
    n = ast.Node_GenDecl g /\
    typeOrValueFirst (ast.GenDecl_Specs g) = true /\
    match p with
    | NilDereference =>
        typeGroup (ast.GenDecl_Specs g) || valueGroup (ast.GenDecl_Specs g)
          = true /\
        ~ In (types.Object_Name obj) (groupNames (ast.GenDecl_Specs g))
    | InterfaceConversion =>
        typeGroup (ast.GenDecl_Specs g) || valueGroup (ast.GenDecl_Specs g)
          = false
    end.
Proof.
  destruct n as [f|g|f|dyn]; simpl; try discriminate.
  intros E. exists g. split; [reflexivity|]. revert E.
  unfold formatNode_GenDecl, findTypeSpec, findVarSpec.
  destruct (ast.GenDecl_Specs g) as [|s specs]; [discriminate|].
  destruct s as [i|v|t]; [discriminate| |].
  - pose proof (findVarSpec_loop_outcome (ast.Spec_ValueSpec v :: specs)
                  (types.Object_Name obj)) as O.
    destruct (findVarSpec_loop _ _) as [[r|]|q]; cbn [bind];
      try discriminate.
    + intros E. injection E as <-. destruct O as (U & N).
      split; [reflexivity|]. split; [|exact N].
      rewrite U. apply orb_true_r.
    + intros E. injection E as <-.
      destruct O as (-> & pre & s & post & L & U & N & K).
      split; [reflexivity|]. rewrite L, valueGroup_app. simpl.
      rewrite K, andb_false_r, orb_false_r.
      rewrite <- L. reflexivity.
  - pose proof (findTypeSpec_loop_outcome (ast.Spec_TypeSpec t :: specs)
                  (types.Object_Name obj)) as O.
    destruct (findTypeSpec_loop _ _) as [[r|]|q]; cbn [bind];
      try discriminate.
    + intros E. injection E as <-. destruct O as (U & N).
      split; [reflexivity|]. split; [|exact N].
      rewrite U. reflexivity.
    + intros E. injection E as <-.
      destruct O as (-> & pre & s & post & L & U & N & K).
      split; [reflexivity|]. rewrite L at 1. rewrite typeGroup_app. simpl.
      rewrite K, andb_false_r. reflexivity.
Qed.

(** X4.  Rendering the copy that a group was rendered from, for the same
    symbol, gives the same text: the copy is a fixed point of the copying
    step of [formatNode]. *)
Theorem formatNode_copy_renders_alike (n cp : ast.GenDecl)
    (obj : types.Object) (prog : loader.Program) :
  formatNode_GenDecl n obj = Ret cp ->
  formatNode_GenDecl cp obj = Ret cp /\
  formatNode Fprint (ast.Node_GenDecl cp) obj prog
  = formatNode Fprint (ast.Node_GenDecl n) obj prog.
Proof.
  intros E. pose proof (formatNode_GenDecl_idempotent _ _ _ E) as I.
  split; [exact I|]. simpl. rewrite E, I. reflexivity.
Qed.

End RenderingOutcomes.

(** X5.  The printer is consulted on declaration headers only: two
    printers that agree on every header give the same rendering of every
    node and the same result of every lookup.  So no doc comment of a
    function, group or retained Spec, no function body and no sibling
    Spec of a type or value group ever reaches the printer. *)
Theorem printer_consulted_on_headers_only
    (Fprint1 Fprint2 : token.FileSet -> ast.Node -> result string)
    (packageInfo : string -> result (string * string))
    (prog : loader.Program) :
  (forall nc, headerNode nc = true ->
              Fprint1 (loader.Fset prog) nc = Fprint2 (loader.Fset prog) nc) ->
  (forall n obj,
     formatNode Fprint1 n obj prog = formatNode Fprint2 n obj prog) /\
  (forall id info,
     IdentDoc Fprint1 packageInfo id info prog
     = IdentDoc Fprint2 packageInfo id info prog).
Proof.
  intros H.
  assert (F : forall n obj,
             formatNode Fprint1 n obj prog = formatNode Fprint2 n obj prog).
  { intros n obj. destruct n as [f|g|f|dyn]; simpl; try reflexivity.
    - unfold printNode. rewrite H by reflexivity. reflexivity.
    - destruct (formatNode_GenDecl g obj) as [cp|p] eqn:E; cbn [bind];
        [|reflexivity].
      unfold printNode.
      rewrite (H _ (formatNode_GenDecl_header _ _ _ E)). reflexivity. }
  split; [exact F|]. intros id info. unfold IdentDoc.
  destruct (loader.ObjectOf info id) as [obj|]; [|reflexivity].
  assert (T : forall nodes pkgPath,
             titleLoop Fprint1 nodes pkgPath obj prog
             = titleLoop Fprint2 nodes pkgPath obj prog).
  { induction nodes as [|m nodes IH]; intros pkgPath; simpl; [reflexivity|].
    rewrite F, IH. reflexivity. }
  unfold titleAndDoc.
  destruct (types.Object_dyn obj); try reflexivity;
    rewrite T; reflexivity.
Qed.

(** ** More on the documentation walk *)

Lemma skipped_passes (node : ast.Node) : skipped node -> passes node.
Proof. destruct node; simpl; try discriminate. reflexivity. Qed.

Lemma Forall_skipped_passes (nodes : list ast.Node) :
  Forall skipped nodes -> Forall passes nodes.
Proof. apply Forall_impl. exact skipped_passes. Qed.

Lemma docRule_fires_on_declaration (node : ast.Node) (text : string) :
  docRule node = Ret (Some text) -> isDeclaration node = true.
Proof. destruct node; simpl; try reflexivity. discriminate. Qed.

(** X6.  The record the walk returns is the given one when no rule fired
    on the whole path, and otherwise the given one with its documentation
    text replaced by the text of the first node, innermost first, whose
    rule fires; that node is a function, a group or a field, and nothing
    of the nodes after it enters the result. *)
Theorem docLoop_first_rule (nodes : list ast.Node) (doc r : Doc) :
  docLoop nodes doc = Ret (Ok r) ->
  (Forall passes nodes /\ r = doc) \/
  (exists pre node post text,
     nodes = (pre ++ node :: post)%list /\
     Forall passes pre /\
     docRule node = Ret (Some text) /\
     isDeclaration node = true /\
     r = {| Import := Import doc; Name := Name doc; Title := Title doc;
            DocText := text |} /\
     forall post', docLoop (pre ++ node :: post') doc = Ret (Ok r)).
Proof.
  induction nodes as [|m nodes IH]; simpl.
  - intros E. injection E as <-. left. split; [constructor | reflexivity].
  - destruct (docRule m) as [[text|]|p] eqn:R; cbn [bind];
      [| |discriminate].
    + intros E. injection E as <-. right.
      exists [], m, nodes, text. repeat split; auto.
      * exact (docRule_fires_on_declaration _ _ R).
      * intros post'. simpl. rewrite R. reflexivity.
    + intros E. destruct (IH E) as [(P & ->)|(pre & node & post & text & H)].
      * left. split; [constructor; assumption | reflexivity].
      * destruct H as (-> & P & Q & D & -> & W). right.
        exists (m :: pre), node, post, text. repeat split; auto.
        intros post'. simpl. rewrite R. cbn [bind]. apply W.
Qed.

Lemma SpecLoop_panic (specs : list ast.Spec) (p : panic) :
  SpecLoop specs = Panic p ->
  p = InterfaceConversion /\ valueGroup specs = false.
Proof.
  induction specs as [|s specs IH]; simpl; [discriminate|].
  destruct s as [i|v|t]; try (intros E; injection E as <-; auto).
  destruct (valueLoop (ast.ValueSpec_Values v)); [discriminate|].
  exact IH.
Qed.

Lemma docRule_panic (node : ast.Node) (p : panic) :
  docRule node = Panic p ->
  p = InterfaceConversion /\ constWellFormed node = false.
Proof.
  destruct node as [f|g|f|dyn]; simpl; try discriminate.
  - destruct (token.Token_eqb (ast.GenDecl_Tok g) token.CONST).
    + destruct (SpecLoop (ast.GenDecl_Specs g)) as [c|q] eqn:S; cbn [bind].
      * destruct (ast.GenDecl_Doc g); discriminate.
      * intros E. injection E as <-. exact (SpecLoop_panic _ _ S).
    + cbn [bind]. destruct (ast.GenDecl_Doc g); discriminate.
  - destruct (ast.Field_Doc f); [discriminate|].
    destruct (ast.Field_Comment f); discriminate.
Qed.

(** X7.  The walk returns no error, and it panics on nothing but a const
    group that holds a Spec which is no value Spec, the panic being the
    failed type assertion of the literal scan; on a path whose const
    groups hold value Specs only, the walk always returns a record. *)
Theorem docLoop_panics_on_malformed_const_only (nodes : list ast.Node)
    (doc : Doc) :
  (forall e, docLoop nodes doc <> Ret (Err e)) /\
  (forall p, docLoop nodes doc = Panic p ->
             p = InterfaceConversion /\
             Exists (fun node => constWellFormed node = false) nodes) /\
  (Forall (fun node => constWellFormed node = true) nodes ->
   exists r, docLoop nodes doc = Ret (Ok r)).
Proof.
  split; [intros e; apply docLoop_no_error|].
  assert (P : forall p, docLoop nodes doc = Panic p ->
              p = InterfaceConversion /\
              Exists (fun node => constWellFormed node = false) nodes).
  { induction nodes as [|m nodes IH]; simpl; [discriminate|].
    intros p. destruct (docRule m) as [[text|]|q] eqn:R; cbn [bind].
    - discriminate.
    - intros E. destruct (IH p E) as (-> & X). auto.
    - intros E. injection E as <-.
      destruct (docRule_panic _ _ R) as (-> & W). auto. }
  split; [exact P|]. intros W.
  destruct (docLoop nodes doc) as [[r|e]|p] eqn:E.
  - exists r. reflexivity.
  - exfalso. exact (docLoop_no_error _ _ _ E).
  - exfalso. destruct (P p eq_refl) as (_ & X).
    apply Exists_exists in X. destruct X as (node & I & B).
    rewrite Forall_forall in W. rewrite (W node I) in B. discriminate.
Qed.

Lemma append_empty_r (s : string) : s ++ "" = s.
Proof. induction s as [|c s IH]; simpl; [reflexivity | now rewrite IH]. Qed.

Lemma Token_eqb_CONST (tok : token.Token) :
  tok <> token.CONST -> token.Token_eqb tok token.CONST = false.
Proof. destruct tok; try reflexivity. congruence. Qed.

(** X8.  When the walk reaches a group that is no const group, no literal
    is scanned: a group with a doc comment ends the walk with exactly the
    comment text, whatever its Specs hold, and a group without one lets
    the walk go on; the walk does not panic there even on Specs of mixed
    kinds. *)
Theorem docLoop_group_not_const (pre : list ast.Node) (n : ast.GenDecl)
    (rest : list ast.Node) (doc : Doc) :
  Forall passes pre ->
  ast.GenDecl_Tok n <> token.CONST ->
  docLoop (pre ++ ast.Node_GenDecl n :: rest) doc =
  match ast.GenDecl_Doc n with
  | Some g =>
      Ret (Ok {| Import := Import doc; Name := Name doc;
                 Title := Title doc;
                 DocText := ast.CommentGroup_text g |})
  | None => docLoop rest doc
  end.
Proof.
  intros P T. rewrite (docLoop_passes _ _ _ P). cbn [docLoop docRule].
  rewrite (Token_eqb_CONST _ T). cbn [bind].
  destruct (ast.GenDecl_Doc n) as [g|]; cbn [bind]; [|reflexivity].
  simpl. rewrite append_empty_r. reflexivity.
Qed.

Lemma SpecLoop_skips (pre rest : list ast.Spec) :
  valueGroup pre = true -> firstLiteral pre = None ->
  SpecLoop (pre ++ rest) = SpecLoop rest.
Proof.
  unfold firstLiteral.
  induction pre as [|s pre IH]; simpl; [reflexivity|].
  intros U. apply andb_prop in U. destruct U as [Us U].
  destruct s as [i|v|t]; try discriminate.
  rewrite find_app_first, <- valueLoop_find.
  destruct (valueLoop (ast.ValueSpec_Values v)); [discriminate|].
  exact (IH U).
Qed.

(** X9.  The literal scan stops at the first Spec that has a non-empty
    basic literal among its values: the scan returns that literal, which
    is not the empty string, and no Spec after it is examined, so that
    not even a Spec of another kind after it makes the scan panic. *)
Theorem SpecLoop_stops_at_first_literal (pre : list ast.Spec)
    (v : ast.ValueSpec) (post : list ast.Spec) (literal : string) :
  valueGroup pre = true ->
  firstLiteral pre = None ->
  firstLiteral [ast.Spec_ValueSpec v] = Some literal ->
  SpecLoop (pre ++ ast.Spec_ValueSpec v :: post) = Ret literal /\
  literal <> "".
Proof.
  intros U N L. rewrite (SpecLoop_skips _ _ U N).
  pose proof (firstLiteral_nonempty _ _ L) as E.
  unfold firstLiteral in L. simpl in L. rewrite app_nil_r in L.
  rewrite <- valueLoop_find in L. simpl. rewrite L.
  split; [reflexivity|]. apply String.eqb_neq. exact E.
Qed.

(** ** More on the lookup *)

(** The walk's text depends on the path and on the text it starts from,
    not on the rest of the record. *)
Lemma docLoop_DocText (nodes : list ast.Node) (d1 d2 r1 r2 : Doc) :
  docLoop nodes d1 = Ret (Ok r1) ->
  docLoop nodes d2 = Ret (Ok r2) ->
  DocText d1 = DocText d2 ->
  DocText r1 = DocText r2.
Proof.
  induction nodes as [|m nodes IH]; simpl.
  - intros E1 E2. injection E1 as <-. injection E2 as <-. auto.
  - destruct (docRule m) as [[text|]|p]; cbn [bind].
    + intros E1 E2 _. injection E1 as <-. injection E2 as <-. reflexivity.
    + exact IH.
    + discriminate.
Qed.

Section LookupOutcomes.

Variable Fprint : token.FileSet -> ast.Node -> result string.
Variable packageInfo : string -> result (string * string).

(** The record of title selection carries the package path and the name
    of the symbol. *)
Lemma titleLoop_fields (nodes : list ast.Node) (pkgPath : string)
    (obj : types.Object) (prog : loader.Program) (doc : Doc) :
  titleLoop Fprint nodes pkgPath obj prog = Ret (Some doc) ->
  Import doc = pkgPath /\ Name doc = types.Object_Name obj.
Proof.
  induction nodes as [|m nodes IH]; simpl; [discriminate|].
  destruct (isDeclaration m); [|exact IH].
  destruct (formatNode Fprint m obj prog); cbn [bind]; [|discriminate].
  intros E. injection E as <-. auto.
Qed.

(** A group of one Spec kind that declares the name is rendered. *)
Lemma formatNode_returns (node : ast.Node) (obj : types.Object)
    (prog : loader.Program) :
  (forall g,
     node = ast.Node_GenDecl g ->
     typeOrValueFirst (ast.GenDecl_Specs g) = true ->
     typeGroup (ast.GenDecl_Specs g) || valueGroup (ast.GenDecl_Specs g)
       = true /\
     In (types.Object_Name obj) (groupNames (ast.GenDecl_Specs g))) ->
  exists title, formatNode Fprint node obj prog = Ret title.
Proof.
  intros H. destruct node as [f|g|f|dyn]; simpl; try (eexists; reflexivity).
  specialize (H g eq_refl).
  unfold formatNode_GenDecl, findTypeSpec, findVarSpec.
  destruct (ast.GenDecl_Specs g) as [|s specs];
    [eexists; reflexivity|].
  destruct s as [i|v|t]; [eexists; reflexivity| |].
  - destruct (H eq_refl) as (U & D).
    rewrite typeGroup_not_value, orb_false_l in U by reflexivity.
    destruct (findVarSpec_loop_first _ _ U D)
      as (pre & r & post & _ & _ & _ & ->).
    cbn [bind]. eexists. reflexivity.
  - destruct (H eq_refl) as (U & D).
    rewrite valueGroup_not_type, orb_false_r in U by reflexivity.
    destruct (findTypeSpec_loop_first _ _ U D)
      as (pre & r & post & _ & _ & _ & ->).
    cbn [bind]. eexists. reflexivity.
Qed.

(** X10.  A record returned for a symbol that is no package alias names
    the symbol and carries the path of the symbol's package, the empty
    string for a symbol without a package. *)
Theorem IdentDoc_names_the_symbol (id : ast.Ident)
    (info : loader.PackageInfo) (prog : loader.Program)
    (obj : types.Object) (doc : Doc) :
  loader.ObjectOf info id = Some obj ->
  isPkgName obj = false ->
  IdentDoc Fprint packageInfo id info prog = Ret (Ok doc) ->
  Name doc = types.Object_Name obj /\
  Import doc = match types.Object_Pkg obj with
               | Some pkg => types.Package_Path pkg
               | None => ""
               end.
Proof.
  intros O K. rewrite (IdentDoc_titleAndDoc _ _ _ _ _ _ O K).
  unfold titleAndDoc.
  destruct (titleLoop Fprint _ _ obj prog) as [[d|]|p] eqn:T; cbn [bind];
    try discriminate.
  intros W. apply titleLoop_fields in T. destruct T as (I & N).
  apply docLoop_keeps_title in W. destruct W as (I' & N' & _).
  split; [congruence|]. rewrite I', I. reflexivity.
Qed.

(** X11.  For a symbol whose innermost enclosing declaration is a
    function, the lookup always returns a record: the title is the print
    of the function's header, or the symbol's own text when the printer
    fails, and the text is the function's doc comment. *)
Theorem IdentDoc_inside_function (id : ast.Ident)
    (info : loader.PackageInfo) (prog : loader.Program)
    (obj : types.Object) (pre : list ast.Node) (fd : ast.FuncDecl)
    (post : list ast.Node) :
  loader.ObjectOf info id = Some obj ->
  isPkgName obj = false ->
  pathOf prog obj = (pre ++ ast.Node_FuncDecl fd :: post)%list ->
  Forall skipped pre ->
  IdentDoc Fprint packageInfo id info prog
  = Ret (Ok {| Import := pkgPathOf obj;
               Name := types.Object_Name obj;
               Title :=
                 match Fprint (loader.Fset prog)
                         (ast.Node_FuncDecl (FuncDecl_header fd)) with
                 | Ok text => text
                 | Err _ => types.Object_String obj
                 end;
               DocText := ast.Text (ast.FuncDecl_Doc fd) |}).
Proof.
  intros O K E P. rewrite (IdentDoc_titleAndDoc _ _ _ _ _ _ O K).
  unfold titleAndDoc. rewrite E.
  rewrite (titleLoop_first Fprint pre (ast.Node_FuncDecl fd) post _ _ _ P
             eq_refl).
  cbn [formatNode bind].
  rewrite (docLoop_passes _ _ _ (Forall_skipped_passes _ P)).
  reflexivity.
Qed.

(** X12.  For a symbol whose innermost enclosing declaration is a field,
    the title of any record returned is the symbol's own text and the
    printer is not consulted; the lookup returns at the field when it has
    a leading or a trailing comment, and otherwise is the walk over the
    nodes outside the field. *)
Theorem IdentDoc_at_field (id : ast.Ident)
    (info : loader.PackageInfo) (prog : loader.Program)
    (obj : types.Object) (pre : list ast.Node) (f : ast.Field)
    (post : list ast.Node) :
  loader.ObjectOf info id = Some obj ->
  isPkgName obj = false ->
  pathOf prog obj = (pre ++ ast.Node_Field f :: post)%list ->
  Forall skipped pre ->
  IdentDoc Fprint packageInfo id info prog
  = match ast.Field_Doc f, ast.Field_Comment f with
    | Some g, _ | None, Some g =>
        Ret (Ok {| Import := pkgPathOf obj;
                   Name := types.Object_Name obj;
                   Title := types.Object_String obj;
                   DocText := ast.CommentGroup_text g |})
    | None, None =>
        docLoop post {| Import := pkgPathOf obj;
                        Name := types.Object_Name obj;
                        Title := types.Object_String obj;
                        DocText := "" |}
    end /\
  (forall doc,
     IdentDoc Fprint packageInfo id info prog = Ret (Ok doc) ->
     Title doc = types.Object_String obj).
Proof.
  intros O K E P. rewrite (IdentDoc_titleAndDoc _ _ _ _ _ _ O K).
  unfold titleAndDoc. rewrite E.
  rewrite (titleLoop_first Fprint pre (ast.Node_Field f) post _ _ _ P
             eq_refl).
  cbn [formatNode bind].
  rewrite (docLoop_passes _ _ _ (Forall_skipped_passes _ P)).
  split.
  - cbn [docLoop docRule]. destruct (ast.Field_Doc f); [reflexivity|].
    destruct (ast.Field_Comment f); reflexivity.
  - intros doc W. apply docLoop_keeps_title in W.
    destruct W as (_ & _ & W). exact W.
Qed.

(** X13.  For a symbol that is no package alias, the lookup returns an
    error exactly when the node path holds no function, group or field,
    the empty path included, and the error is then always the same
    message: the two error returns of [IdentDoc] cannot be told apart. *)
Theorem IdentDoc_error_iff (id : ast.Ident)
    (info : loader.PackageInfo) (prog : loader.Program)
    (obj : types.Object) (e : error) :
  loader.ObjectOf info id = Some obj ->
  isPkgName obj = false ->
  IdentDoc Fprint packageInfo id info prog = Ret (Err e) <->
  Forall skipped (pathOf prog obj) /\
  e = "No documentation found for " ++ types.Object_Name obj.
Proof.
  intros O K. rewrite (IdentDoc_titleAndDoc _ _ _ _ _ _ O K). split.
  - apply titleAndDoc_error.
  - intros (P & ->). unfold titleAndDoc.
    rewrite (titleLoop_none _ _ _ _ _ P). reflexivity.
Qed.

(** X14.  The lookup returns a record, without error and without panic,
    for every symbol that is no package alias when the first function,
    group or field of the path, if it is a type or value group, holds
    Specs of one kind of which one declares the symbol's name, and the
    const groups of the path hold value Specs only. *)
Theorem IdentDoc_returns_record (id : ast.Ident)
    (info : loader.PackageInfo) (prog : loader.Program)
    (obj : types.Object) (pre : list ast.Node) (node : ast.Node)
    (post : list ast.Node) :
  loader.ObjectOf info id = Some obj ->
  isPkgName obj = false ->
  pathOf prog obj = (pre ++ node :: post)%list ->
  Forall skipped pre ->
  isDeclaration node = true ->
  (forall g,
     node = ast.Node_GenDecl g ->
     typeOrValueFirst (ast.GenDecl_Specs g) = true ->
     typeGroup (ast.GenDecl_Specs g) || valueGroup (ast.GenDecl_Specs g)
       = true /\
     In (types.Object_Name obj) (groupNames (ast.GenDecl_Specs g))) ->
  Forall (fun m => constWellFormed m = true) (pathOf prog obj) ->
  exists doc, IdentDoc Fprint packageInfo id info prog = Ret (Ok doc).
Proof.
  intros O K E P D G W. rewrite (IdentDoc_titleAndDoc _ _ _ _ _ _ O K).
  unfold titleAndDoc. rewrite E in *.
  rewrite (titleLoop_first _ _ _ _ _ _ _ P D).
  destruct (formatNode_returns node obj prog G) as (title & ->).
  cbn [bind].
  match goal with
  | |- exists doc, docLoop ?nodes ?d = _ =>
      destruct (docLoop nodes d) as [[r|e]|p] eqn:L
  end.
  - exists r. reflexivity.
  - exfalso. exact (docLoop_no_error _ _ _ L).
  - exfalso.
    assert (X : Exists (fun m => constWellFormed m = false)
                  (pre ++ node :: post)).
    { clear - L. revert L.
      generalize (pre ++ node :: post)%list as nodes.
      induction nodes as [|m nodes IH]; simpl; [discriminate|].
      destruct (docRule m) as [[text|]|q] eqn:R; cbn [bind].
      - discriminate.
      - intros L. right. exact (IH L).
      - intros _. left. exact (proj2 (docRule_panic _ _ R)). }
    apply Exists_exists in X. destruct X as (m & I & B).
    rewrite Forall_forall in W. rewrite (W m I) in B. discriminate.
Qed.

End LookupOutcomes.

(** X15.  The documentation text depends on the node path only: two
    lookups of symbols that are no package aliases, with any printers,
    return the same text when the node paths are the same; so every name
    of a declaration group gets the text, and the constant-value line,
    of every other. *)
Theorem DocText_depends_on_path_only
    (Fprint1 Fprint2 : token.FileSet -> ast.Node -> result string)
    (packageInfo1 packageInfo2 : string -> result (string * string))
    (id1 id2 : ast.Ident) (info1 info2 : loader.PackageInfo)
    (prog1 prog2 : loader.Program) (obj1 obj2 : types.Object)
    (doc1 doc2 : Doc) :
  loader.ObjectOf info1 id1 = Some obj1 ->
  loader.ObjectOf info2 id2 = Some obj2 ->
  isPkgName obj1 = false ->
  isPkgName obj2 = false ->
  pathOf prog1 obj1 = pathOf prog2 obj2 ->
  IdentDoc Fprint1 packageInfo1 id1 info1 prog1 = Ret (Ok doc1) ->
  IdentDoc Fprint2 packageInfo2 id2 info2 prog2 = Ret (Ok doc2) ->
  DocText doc1 = DocText doc2.
Proof.
  intros O1 O2 K1 K2 E.
  rewrite (IdentDoc_titleAndDoc _ _ _ _ _ _ O1 K1).
  rewrite (IdentDoc_titleAndDoc _ _ _ _ _ _ O2 K2).
  unfold titleAndDoc. rewrite E.
  destruct (titleLoop Fprint1 _ _ obj1 prog1) as [[d1|]|p1] eqn:T1;
    cbn [bind]; try discriminate.
  destruct (titleLoop Fprint2 _ _ obj2 prog2) as [[d2|]|p2] eqn:T2;
    cbn [bind]; try discriminate.
  intros W1 W2. apply (docLoop_DocText _ _ _ _ _ W1 W2).
  rewrite (titleLoop_DocText _ _ _ _ _ _ T1).
  rewrite (titleLoop_DocText _ _ _ _ _ _ T2). reflexivity.
Qed.

(** ** The further properties on the sample inputs *)

(** X3 on the variable [y] inside the function literal of [varF]. *)
Lemma formatNode_panic_cause_witness :
  formatNode samplePrinter (ast.Node_GenDecl varF) objY (programOf pathOfY)
    = Panic NilDereference
  /\ exists g,
       ast.Node_GenDecl varF = ast.Node_GenDecl g /\
       typeOrValueFirst (ast.GenDecl_Specs g) = true /\
       typeGroup (ast.GenDecl_Specs g) || valueGroup (ast.GenDecl_Specs g)
         = true /\
       ~ In (types.Object_Name objY) (groupNames (ast.GenDecl_Specs g)).
Proof.
  split; [reflexivity|].
  exact (formatNode_panic_cause samplePrinter (ast.Node_GenDecl varF) objY
           (programOf pathOfY) NilDereference eq_refl).
Defined.

(** X4 on the constant [B]: [const B = 2] renders as [constAB] does. *)
Lemma formatNode_copy_renders_alike_witness :
  formatNode_GenDecl constAB objB = Ret constB_copy
  /\ formatNode_GenDecl constB_copy objB = Ret constB_copy
  /\ formatNode samplePrinter (ast.Node_GenDecl constB_copy) objB
       (programOf pathOfB)
     = formatNode samplePrinter (ast.Node_GenDecl constAB) objB
         (programOf pathOfB).
Proof.
  split; [reflexivity|].
  exact (formatNode_copy_renders_alike samplePrinter constAB constB_copy
           objB (programOf pathOfB) eq_refl).
Defined.

(** X5 on the sample printer and the printer that refuses every node
    that is no header. *)
Lemma printer_consulted_on_headers_only_witness :
  (forall nc, headerNode nc = true ->
     samplePrinter (loader.Fset (programOf pathOfB)) nc
     = strictPrinter (loader.Fset (programOf pathOfB)) nc)
  /\ strictPrinter (loader.Fset (programOf pathOfB))
       (ast.Node_GenDecl constAB) = Err "not a declaration header"
  /\ IdentDoc samplePrinter samplePackages (ident "B") (infoOf objB)
       (programOf pathOfB)
     = IdentDoc strictPrinter samplePackages (ident "B") (infoOf objB)
         (programOf pathOfB).
Proof.
  assert (H : forall nc, headerNode nc = true ->
                samplePrinter (loader.Fset (programOf pathOfB)) nc
                = strictPrinter (loader.Fset (programOf pathOfB)) nc).
  { intros nc E. unfold strictPrinter. rewrite E. reflexivity. }
  split; [exact H|]. split; [reflexivity|].
  exact (proj2 (printer_consulted_on_headers_only samplePrinter
                  strictPrinter samplePackages (programOf pathOfB) H)
           (ident "B") (infoOf objB)).
Defined.

(** X6 on the field [X]: the text is that of the enclosing type group. *)
Lemma docLoop_first_rule_witness :
  docLoop pathOfX (sampleDoc "X" "field X int")
    = Ret (Ok {| Import := "example.org/app"; Name := "X";
                 Title := "field X int";
                 DocText := "T holds the settings." |})
  /\ ((Forall passes pathOfX /\
       {| Import := "example.org/app"; Name := "X"; Title := "field X int";
          DocText := "T holds the settings." |}
       = sampleDoc "X" "field X int") \/
      exists pre node post text,
        pathOfX = (pre ++ node :: post)%list /\
        Forall passes pre /\
        docRule node = Ret (Some text) /\
        isDeclaration node = true /\
        {| Import := "example.org/app"; Name := "X"; Title := "field X int";
           DocText := "T holds the settings." |}
        = {| Import := "example.org/app"; Name := "X";
             Title := "field X int"; DocText := text |} /\
        forall post',
          docLoop (pre ++ node :: post') (sampleDoc "X" "field X int")
          = Ret (Ok {| Import := "example.org/app"; Name := "X";
                       Title := "field X int";
                       DocText := "T holds the settings." |})).
Proof.
  split; [reflexivity|].
  exact (docLoop_first_rule pathOfX (sampleDoc "X" "field X int") _ eq_refl).
Defined.

(** X7 on the path of [B], and on a const group with a type Spec. *)
Lemma docLoop_panics_on_malformed_const_only_witness :
  Forall (fun node => constWellFormed node = true) pathOfB_bare
  /\ (exists r, docLoop pathOfB_bare (sampleDoc "B" "const B") = Ret (Ok r))
  /\ docLoop [ast.Node_GenDecl
                (group None token.CONST [typeSpec "T" None])]
       (sampleDoc "T" "type T") = Panic InterfaceConversion
  /\ Exists (fun node => constWellFormed node = false)
       [ast.Node_GenDecl (group None token.CONST [typeSpec "T" None])].
Proof.
  assert (W : Forall (fun node => constWellFormed node = true) pathOfB_bare)
    by (repeat constructor).
  split; [exact W|]. split.
  - exact (proj2 (proj2 (docLoop_panics_on_malformed_const_only
                           pathOfB_bare (sampleDoc "B" "const B"))) W).
  - split; [reflexivity|].
    exact (proj2 (proj1 (proj2 (docLoop_panics_on_malformed_const_only
                                  [ast.Node_GenDecl
                                     (group None token.CONST
                                        [typeSpec "T" None])]
                                  (sampleDoc "T" "type T")))
                    InterfaceConversion eq_refl)).
Defined.

(** X8 on [var limit = 3] under a comment: no constant-value line. *)
Lemma docLoop_group_not_const_witness :
  Forall passes [ast.Node_Other "*ast.Ident"; ast.Node_Other "*ast.ValueSpec"]
  /\ ast.GenDecl_Tok varLimit <> token.CONST
  /\ docLoop [ast.Node_Other "*ast.Ident"; ast.Node_Other "*ast.ValueSpec";
              ast.Node_GenDecl varLimit; ast.Node_Other "*ast.File"]
       (sampleDoc "limit" "var limit")
     = Ret (Ok {| Import := "example.org/app"; Name := "limit";
                  Title := "var limit"; DocText := "Retries allowed." |}).
Proof.
  assert (P : Forall passes
                [ast.Node_Other "*ast.Ident"; ast.Node_Other "*ast.ValueSpec"])
    by (repeat constructor).
  assert (T : ast.GenDecl_Tok varLimit <> token.CONST) by discriminate.
  split; [exact P|]. split; [exact T|].
  exact (docLoop_group_not_const _ varLimit [ast.Node_Other "*ast.File"]
           (sampleDoc "limit" "var limit") P T).
Defined.

(** X9 on [A = iota; B = 2] followed by a type Spec. *)
Lemma SpecLoop_stops_at_first_literal_witness :
  valueGroup [valueSpec ["A"] [ast.Expr_Other "iota"]] = true
  /\ firstLiteral [valueSpec ["A"] [ast.Expr_Other "iota"]] = None
  /\ firstLiteral [ast.Spec_ValueSpec specB] = Some "2"
  /\ SpecLoop [valueSpec ["A"] [ast.Expr_Other "iota"];
               ast.Spec_ValueSpec specB; typeSpec "T" None] = Ret "2".
Proof.
  split; [reflexivity|]. split; [reflexivity|]. split; [reflexivity|].
  exact (proj1 (SpecLoop_stops_at_first_literal
                  [valueSpec ["A"] [ast.Expr_Other "iota"]] specB
                  [typeSpec "T" None] "2" eq_refl eq_refl eq_refl)).
Defined.

(** X10 on the constant [B]. *)
Lemma IdentDoc_names_the_symbol_witness :
  loader.ObjectOf (infoOf objB) (ident "B") = Some objB
  /\ isPkgName objB = false
  /\ IdentDoc samplePrinter samplePackages (ident "B") (infoOf objB)
       (programOf pathOfB) = Ret (Ok (docOfAB "B"))
  /\ Name (docOfAB "B") = "B"
  /\ Import (docOfAB "B") = "example.org/app".
Proof.
  split; [reflexivity|]. split; [reflexivity|]. split; [reflexivity|].
  exact (IdentDoc_names_the_symbol samplePrinter samplePackages (ident "B")
           (infoOf objB) (programOf pathOfB) objB (docOfAB "B")
           eq_refl eq_refl eq_refl).
Defined.

(** X11 on the function [Foo] with the comment [// Foo does X.] *)
Lemma IdentDoc_inside_function_witness :
  loader.ObjectOf (infoOf objFoo) (ident "Foo") = Some objFoo
  /\ isPkgName objFoo = false
  /\ Forall skipped [ast.Node_Other "*ast.Ident"]
  /\ IdentDoc samplePrinter samplePackages (ident "Foo") (infoOf objFoo)
       (programOf pathOfFoo)
     = Ret (Ok {| Import := "example.org/app"; Name := "Foo";
                  Title := "func Foo";
                  DocText := "Foo does X." ++ newline |}).
Proof.
  assert (P : Forall skipped [ast.Node_Other "*ast.Ident"])
    by (repeat constructor).
  split; [reflexivity|]. split; [reflexivity|]. split; [exact P|].
  exact (IdentDoc_inside_function samplePrinter samplePackages (ident "Foo")
           (infoOf objFoo) (programOf pathOfFoo) objFoo
           [ast.Node_Other "*ast.Ident"] funcFoo [ast.Node_Other "*ast.File"]
           eq_refl eq_refl eq_refl P).
Defined.

(** X12 on the field [Timeout] with a trailing comment. *)
Lemma IdentDoc_at_field_witness :
  loader.ObjectOf (infoOf objTimeout) (ident "Timeout") = Some objTimeout
  /\ isPkgName objTimeout = false
  /\ Forall skipped [ast.Node_Other "*ast.Ident"]
  /\ IdentDoc samplePrinter samplePackages (ident "Timeout")
       (infoOf objTimeout) (programOf pathOfTimeout)
     = Ret (Ok {| Import := "example.org/app"; Name := "Timeout";
                  Title := "field Timeout int";
                  DocText := "units: ms" |}).
Proof.
  assert (P : Forall skipped [ast.Node_Other "*ast.Ident"])
    by (repeat constructor).
  split; [reflexivity|]. split; [reflexivity|]. split; [exact P|].
  exact (proj1 (IdentDoc_at_field samplePrinter samplePackages
                  (ident "Timeout") (infoOf objTimeout)
                  (programOf pathOfTimeout) objTimeout
                  [ast.Node_Other "*ast.Ident"] fieldTimeout
                  (skipn 2 pathOfTimeout) eq_refl eq_refl eq_refl P)).
Defined.

(** X13 on a path without a declaration, and on the empty path. *)
Lemma IdentDoc_error_iff_witness :
  loader.ObjectOf (infoOf objB) (ident "B") = Some objB
  /\ isPkgName objB = false
  /\ IdentDoc samplePrinter samplePackages (ident "B") (infoOf objB)
       (programOf pathOfNothing) = Ret (Err "No documentation found for B")
  /\ IdentDoc samplePrinter samplePackages (ident "B") (infoOf objB)
       (programOf []) = Ret (Err "No documentation found for B").
Proof.
  split; [reflexivity|]. split; [reflexivity|]. split.
  - refine (proj2 (IdentDoc_error_iff samplePrinter samplePackages
                     (ident "B") (infoOf objB) (programOf pathOfNothing)
                     objB _ eq_refl eq_refl) (conj _ eq_refl)).
    repeat constructor.
  - refine (proj2 (IdentDoc_error_iff samplePrinter samplePackages
                     (ident "B") (infoOf objB) (programOf [])
                     objB _ eq_refl eq_refl) (conj _ eq_refl)).
    constructor.
Defined.

(** X14 on the constant [B] of [constAB]. *)
Lemma IdentDoc_returns_record_witness :
  loader.ObjectOf (infoOf objB) (ident "B") = Some objB
  /\ isPkgName objB = false
  /\ Forall skipped
       [ast.Node_Other "*ast.Ident"; ast.Node_Other "*ast.ValueSpec"]
  /\ Forall (fun m => constWellFormed m = true)
       (pathOf (programOf pathOfB) objB)
  /\ exists doc,
       IdentDoc samplePrinter samplePackages (ident "B") (infoOf objB)
         (programOf pathOfB) = Ret (Ok doc).
Proof.
  assert (P : Forall skipped
                [ast.Node_Other "*ast.Ident"; ast.Node_Other "*ast.ValueSpec"])
    by (repeat constructor).
  assert (W : Forall (fun m => constWellFormed m = true)
                (pathOf (programOf pathOfB) objB))
    by (repeat constructor).
  split; [reflexivity|]. split; [reflexivity|].
  split; [exact P|]. split; [exact W|].
  refine (IdentDoc_returns_record samplePrinter samplePackages (ident "B")
            (infoOf objB) (programOf pathOfB) objB
            [ast.Node_Other "*ast.Ident"; ast.Node_Other "*ast.ValueSpec"]
            (ast.Node_GenDecl constAB) [ast.Node_Other "*ast.File"]
            eq_refl eq_refl eq_refl P eq_refl _ W).
  intros g E _. injection E as <-. split; [reflexivity|].
  simpl. auto.
Defined.

(** X15 on the constants [A] and [B] of [constAB]: both get the literal
    of [A]. *)
Lemma DocText_depends_on_path_only_witness :
  IdentDoc samplePrinter samplePackages (ident "A") (infoOf objA)
    (programOf pathOfB) = Ret (Ok (docOfAB "A"))
  /\ IdentDoc strictPrinter samplePackages (ident "B") (infoOf objB)
       (programOf pathOfB) = Ret (Ok (docOfAB "B"))
  /\ DocText (docOfAB "A") = DocText (docOfAB "B").
Proof.
  split; [reflexivity|]. split; [reflexivity|].
  exact (DocText_depends_on_path_only samplePrinter strictPrinter
           samplePackages samplePackages (ident "A") (ident "B")
           (infoOf objA) (infoOf objB) (programOf pathOfB)
           (programOf pathOfB) objA objB (docOfAB "A") (docOfAB "B")
           eq_refl eq_refl eq_refl eq_refl eq_refl eq_refl eq_refl).
Defined.

(** X16.  For a symbol that is no package alias, the walk in effect
    starts at the node the title is rendered from: the lookup is the
    rendering of the first function, group or field of the path followed
    by the walk over that node and the nodes outside it, and the nodes
    inside it play no part in the text. *)
Theorem IdentDoc_walk_starts_at_title_node
    (Fprint : token.FileSet -> ast.Node -> result string)
    (packageInfo : string -> result (string * string))
    (id : ast.Ident) (info : loader.PackageInfo) (prog : loader.Program)
    (obj : types.Object) (pre : list ast.Node) (node : ast.Node)
    (post : list ast.Node) :
  loader.ObjectOf info id = Some obj ->
  isPkgName obj = false ->
  pathOf prog obj = (pre ++ node :: post)%list ->
  Forall skipped pre ->
  isDeclaration node = true ->
  IdentDoc Fprint packageInfo id info prog
  = (title <- formatNode Fprint node obj prog ;;
     docLoop (node :: post)
       {| Import := pkgPathOf obj; Name := types.Object_Name obj;
          Title := title; DocText := "" |}).
Proof.
  intros O K E P D. rewrite (IdentDoc_titleAndDoc _ _ _ _ _ _ O K).
  unfold titleAndDoc. rewrite E.
  rewrite (titleLoop_first Fprint pre node post _ _ _ P D).
  destruct (formatNode Fprint node obj prog) as [title|p]; cbn [bind];
    [|reflexivity].
  exact (docLoop_passes _ _ _ (Forall_skipped_passes _ P)).
Qed.

(** X16 on the field [X] of [typeT]. *)
Lemma IdentDoc_walk_starts_at_title_node_witness :
  loader.ObjectOf (infoOf (object types.Var "X" 3%Z "field X int"))
    (ident "X") = Some (object types.Var "X" 3%Z "field X int")
  /\ isPkgName (object types.Var "X" 3%Z "field X int") = false
  /\ Forall skipped [ast.Node_Other "*ast.Ident"]
  /\ IdentDoc samplePrinter samplePackages (ident "X")
       (infoOf (object types.Var "X" 3%Z "field X int")) (programOf pathOfX)
     = docLoop (skipn 1 pathOfX) (sampleDoc "X" "field X int").
Proof.
  assert (P : Forall skipped [ast.Node_Other "*ast.Ident"])
    by (repeat constructor).
  split; [reflexivity|]. split; [reflexivity|]. split; [exact P|].
  exact (IdentDoc_walk_starts_at_title_node samplePrinter samplePackages
           (ident "X") (infoOf (object types.Var "X" 3%Z "field X int"))
           (programOf pathOfX) (object types.Var "X" 3%Z "field X int")
           [ast.Node_Other "*ast.Ident"] (ast.Node_Field fieldX)
           (skipn 2 pathOfX) eq_refl eq_refl eq_refl P eq_refl).
Defined.
